(** * Cognitive observability for MCP: a shallow embedding

    The development follows the Python sources of [mcp_audit]:

    - [interceptors/mcp_proxy.py]        (modules [Proxy], [Config], [Manager])
    - [interceptors/mcp_proxy_runner.py] (module [Runner])
    - [utils/fix_recursive_config.py]    (module [FixRecursive])
    - [tracing/timeline_analyzer.py]     (module [Timeline])
    - [analyzers/cognitive_analyzer.py]  (module [Cognitive])
    - [core/models.py]                   (module [Models])

    The definitions come first; the properties follow from module
    [CognitiveFacts] on.

    Conventions of the embedding.

    - A Python [str] is a [string] of bytes (UTF-8).  The text helpers of
      module [Py] ([lower], [split], [strip], digit search, lengths) act on
      the ASCII range, which is where every keyword of the sources lives;
      on text outside it Python works on code points, and the embedding is
      not meant for such text.
    - A [datetime] is a [Z]: microseconds since the epoch; a [timedelta] is
      a difference of such numbers.
    - A Python [float] is read as an exact number.  The five sub-scores only
      ever hold small integers ([Z]); the weighted overall score, averages
      and durations are rationals ([Q]).  Binary rounding is not modelled.
    - JSON documents are [json] values; a [dict] keeps its keys in insertion
      order, as Python does.
    - Records written by this code base (events, flows, launch records) are
      typed by the schema their writer emits; wire payloads stay raw JSON. *)

From Stdlib Require Import ZArith QArith Qminmax Qround List String Ascii Bool Lia.
From Stdlib Require Import DecimalString Sorted Lqa.
From Equations Require Import Equations.
Import ListNotations.

Set Implicit Arguments.
Local Open Scope Z_scope.

(* ===================================================================== *)
(** ** Python built-ins used by the sources *)
(* ===================================================================== *)

Module Py.

(** [str.isspace] on the ASCII range: TAB..CR, FS..US and SPACE. *)
Definition is_space (c : ascii) : bool :=
  let n := nat_of_ascii c in
  (((9 <=? n) && (n <=? 13)) || ((28 <=? n) && (n <=? 32)))%nat.

Definition is_digit (c : ascii) : bool :=
  let n := nat_of_ascii c in ((48 <=? n) && (n <=? 57))%nat.

Definition lower_char (c : ascii) : ascii :=
  let n := nat_of_ascii c in
  if ((65 <=? n) && (n <=? 90))%nat then ascii_of_nat (n + 32) else c.

(** [s.lower()] *)
Fixpoint lower (s : string) : string :=
  match s with
  | EmptyString => EmptyString
  | String c r => String (lower_char c) (lower r)
  end.

Definition rev (s : string) : string :=
  string_of_list_ascii (List.rev (list_ascii_of_string s)).

Fixpoint lstrip (s : string) : string :=
  match s with
  | EmptyString => EmptyString
  | String c r => if is_space c then lstrip r else s
  end.

Definition rstrip (s : string) : string := rev (lstrip (rev s)).

(** [s.strip()] *)
Definition strip (s : string) : string := rstrip (lstrip s).

(** [s.split()]: maximal runs of non-blank characters, in order.
    [cur] is the word being read, last character first. *)
Fixpoint split_from (s : string) (cur : option string) : list string :=
  match s with
  | EmptyString =>
      match cur with Some w => [rev w] | None => [] end
  | String c r =>
      if is_space c then
        match cur with
        | Some w => rev w :: split_from r None
        | None => split_from r None
        end
      else
        split_from r (Some (String c (match cur with Some w => w | None => EmptyString end)))
  end.

Definition split (s : string) : list string := split_from s None.

(** [sub in s] on strings *)
Fixpoint contains (sub s : string) : bool :=
  String.prefix sub s ||
  match s with
  | EmptyString => false
  | String _ r => contains sub r
  end.

(** [s.startswith(p)], [s.endswith(p)] *)
Definition startswith (p s : string) : bool := String.prefix p s.

(** [re.search(r'\d+', s)] finds a match exactly when [s] has a digit. *)
Fixpoint has_digit (s : string) : bool :=
  match s with
  | EmptyString => false
  | String c r => is_digit c || has_digit r
  end.

(** [any(w in s for w in ws)] and [sum(1 for w in ws if w in s)] *)
Definition any_in (ws : list string) (s : string) : bool :=
  existsb (fun w => contains w s) ws.

Definition count_in (ws : list string) (s : string) : Z :=
  Z.of_nat (List.length (filter (fun w => contains w s) ws)).

(** [l.index(x)]: position of the first occurrence, [None] for
    [ValueError]. *)
Fixpoint index (x : string) (l : list string) : option nat :=
  match l with
  | [] => None
  | y :: r => if String.eqb y x then Some O
              else option_map S (index x r)
  end.

(** [sep.join(l)] *)
Fixpoint join (sep : string) (l : list string) : string :=
  match l with
  | [] => EmptyString
  | [x] => x
  | x :: r => String.append x (String.append sep (join sep r))
  end.

(** [s[:n]] *)
Definition take (n : nat) (s : string) : string := String.substring 0 n s.

End Py.

(* ===================================================================== *)
(** ** JSON values *)
(* ===================================================================== *)

(** What [json.loads] returns: [JNull] is Python's [None], a [JDict] keeps
    insertion order and has no duplicate key. *)
#[warnings="-register-all"]
Inductive json : Type :=
| JNull
| JBool (b : bool)
| JInt (n : Z)
| JStr (s : string)
| JList (l : list json)
| JDict (d : list (string * json)).

Definition dict := list (string * json).

(** [d.get(k)] with [None] for a missing key. *)
Fixpoint dict_get (k : string) (d : dict) : option json :=
  match d with
  | [] => None
  | (k', v) :: r => if String.eqb k' k then Some v else dict_get k r
  end.

(** [d.get(k)] as a Python value: a missing key reads as [None]. *)
Definition get (k : string) (d : dict) : json :=
  match dict_get k d with Some v => v | None => JNull end.

(** [d.get(k, default)] *)
Definition get_default (k : string) (dflt : json) (d : dict) : json :=
  match dict_get k d with Some v => v | None => dflt end.


(** Python truth value of a JSON value. *)
Definition truthy (v : json) : bool :=
  match v with
  | JNull => false
  | JBool b => b
  | JInt n => negb (n =? 0)
  | JStr s => negb (String.eqb s EmptyString)
  | JList l => match l with [] => false | _ => true end
  | JDict d => match d with [] => false | _ => true end
  end.

(** [v == s] for a string literal [s] *)
Definition is_str (s : string) (v : json) : bool :=
  match v with JStr s' => String.eqb s' s | _ => false end.

(** [v is not None] *)
Definition not_none (v : json) : bool :=
  match v with JNull => false | _ => true end.

(** [a == b] on JSON values: booleans are the integers 0 and 1, lists are
    compared in order, dictionaries key by key whatever the order. *)
Definition as_number (v : json) : option Z :=
  match v with
  | JBool b => Some (if b then 1 else 0)
  | JInt n => Some n
  | _ => None
  end.

Fixpoint py_eqb (a b : json) {struct a} : bool :=
  match a with
  | JNull => match b with JNull => true | _ => false end
  | JBool _ | JInt _ =>
      match as_number a, as_number b with
      | Some x, Some y => x =? y
      | _, _ => false
      end
  | JStr s => match b with JStr t => String.eqb s t | _ => false end
  | JList l =>
      match b with
      | JList m =>
          (fix go (l m : list json) {struct l} : bool :=
             match l, m with
             | [], [] => true
             | x :: l', y :: m' => py_eqb x y && go l' m'
             | _, _ => false
             end) l m
      | _ => false
      end
  | JDict d =>
      match b with
      | JDict e =>
          (List.length d =? List.length e)%nat &&
          (fix go (d : list (string * json)) {struct d} : bool :=
             match d with
             | [] => true
             | (k, v) :: d' =>
                 match dict_get k e with
                 | Some w => py_eqb v w
                 | None => false
                 end && go d'
             end) d
      | _ => false
      end
  end.

(** Depth of nested dictionaries below a value, counted from [cur]
    ([_calculate_dict_depth] of the analyzer; only dictionary values are
    followed, lists are not). *)
Fixpoint dict_depth (v : json) (cur : Z) {struct v} : Z :=
  match v with
  | JDict d =>
      (fix go (l : list (string * json)) (max_depth : Z) {struct l} : Z :=
         match l with
         | [] => max_depth
         | (_, x) :: r =>
             go r (match x with
                   | JDict _ => Z.max max_depth (dict_depth x (cur + 1))
                   | _ => max_depth
                   end)
         end) d cur
  | _ => cur
  end.

(* ===================================================================== *)
(** ** core/models.py *)
(* ===================================================================== *)

Module Models.

Inductive MCPMessageDirection : Type :=
| USER_TO_LLM
| LLM_TO_MCP_CLIENT
| MCP_CLIENT_TO_SERVER
| SERVER_TO_API.

(** [direction.value] *)
Definition direction_value (d : MCPMessageDirection) : string :=
  match d with
  | USER_TO_LLM => "user→llm"
  | LLM_TO_MCP_CLIENT => "llm→mcp_client"
  | MCP_CLIENT_TO_SERVER => "mcp_client→server"
  | SERVER_TO_API => "server→api"
  end.

Definition direction_eqb (a b : MCPMessageDirection) : bool :=
  match a, b with
  | USER_TO_LLM, USER_TO_LLM
  | LLM_TO_MCP_CLIENT, LLM_TO_MCP_CLIENT
  | MCP_CLIENT_TO_SERVER, MCP_CLIENT_TO_SERVER
  | SERVER_TO_API, SERVER_TO_API => true
  | _, _ => false
  end.

Inductive MCPProtocol : Type :=
| JSON_RPC
| HTTP
| WEBSOCKET
| STDIO.

Definition protocol_value (p : MCPProtocol) : string :=
  match p with
  | JSON_RPC => "JSON-RPC"
  | HTTP => "HTTP"
  | WEBSOCKET => "WebSocket"
  | STDIO => "stdio"
  end.

Definition protocol_eqb (a b : MCPProtocol) : bool :=
  match a, b with
  | JSON_RPC, JSON_RPC
  | HTTP, HTTP
  | WEBSOCKET, WEBSOCKET
  | STDIO, STDIO => true
  | _, _ => false
  end.

(** [class MCPMessageTrace(BaseModel)] *)
Record MCPMessageTrace : Type := {
  direction : MCPMessageDirection;
  protocol : MCPProtocol;
  payload : dict;
  timestamp : Z;
  latency_ms : option Z;
  error_code : option string;
  retry_attempt : option Z
}.

(** [class MCPInteraction(BaseModel)]; [conversation_context] is an
    optional field that no code below reads. *)
Record MCPInteraction : Type := {
  session_id : string;
  server_name : string;
  user_query : string;
  start_time : Z;
  end_time : option Z;
  message_traces : list MCPMessageTrace;
  success : bool;
  total_latency_ms : option Z;
  retry_count : Z;
  user_context : option dict
}.

(** The dictionary [breakdown] built by [_calculate_retry_frustration]
    (its free-text [explanations] are left out). *)
Module RetryBreakdown.
Record t : Type := {
  base_score : Z;
  retry_penalty : Z;
  retry_count : Z;
  failure_penalty : Z;
  failed_interaction : bool;
  error_penalty : Z;
  actual_error_count : Z;
  latency_penalty : Z;
  latency_ms : option Z;
  latency_threshold_ms : Z
}.
End RetryBreakdown.

(** The dictionary [breakdown] built by
    [_calculate_configuration_friction] (without [explanations]). *)
Module ConfigBreakdown.
Record t : Type := {
  base_score : Z;
  auth_penalty : Z;
  param_penalty : Z;
  config_keyword_penalty : Z;
  latency_penalty : Z;
  latency_ms : option Z;
  latency_threshold_ms : Z
}.
End ConfigBreakdown.

(** [class CognitiveLoadMetrics(BaseModel)] *)
Record CognitiveLoadMetrics : Type := {
  overall_score : Q;
  prompt_complexity : Z;
  context_switching : Z;
  retry_frustration : Z;
  configuration_friction : Z;
  integration_cognition : Z;
  retry_breakdown : option RetryBreakdown.t;
  configuration_breakdown : option ConfigBreakdown.t
}.

(** The constraints [Field(ge=0, le=100)] of the six scores: building a
    [CognitiveLoadMetrics] outside them raises a validation error. *)
Definition score_ok (x : Z) : bool := (0 <=? x) && (x <=? 100).

Definition validates (m : CognitiveLoadMetrics) : bool :=
  Qle_bool 0 (overall_score m) && Qle_bool (overall_score m) 100 &&
  score_ok (prompt_complexity m) && score_ok (context_switching m) &&
  score_ok (retry_frustration m) && score_ok (configuration_friction m) &&
  score_ok (integration_cognition m).

End Models.

(* ===================================================================== *)
(** ** analyzers/cognitive_analyzer.py *)
(* ===================================================================== *)

Module Cognitive.
Import Models.

(** The dictionary [weights] of [_calculate_overall_cognitive_load]. *)
Module Weights.
Definition prompt_complexity : Q := 0.15.
Definition context_switching : Q := 0.20.
Definition retry_frustration : Q := 0.30.
Definition configuration_friction : Q := 0.25.
Definition integration_cognition : Q := 0.10.
End Weights.

Section Analyzer.

(** [str(v)]: Python's rendering of a value, a built-in of
    the interpreter. *)
Variable py_str : json -> string.

(** [self.baseline_latency_ms] *)
Definition baseline_latency_ms : Z := 15000.

Definition technical_indicators : list string :=
  ["api"; "config"; "authentication"; "parameter"; "endpoint"; "json";
   "xml"; "database"; "query"; "schema"; "token"; "oauth"; "webhook";
   "integration"; "middleware"; "proxy"; "cache"; "sync"; "async";
   "batch"; "stream"]%string.

Definition complexity_indicators : list string :=
  ["if"; "when"; "unless"; "where"; "filter"; "sort"; "group";
   "aggregate"; "combine"; "merge"; "transform"; "convert"; "validate";
   "parse"]%string.

Definition action_verbs : list string :=
  ["create"; "update"; "delete"; "get"; "set"; "add"; "remove";
   "modify"; "send"; "receive"; "upload"; "download"; "import";
   "export"; "backup"; "restore"; "sync"; "copy"; "move"; "rename";
   "list"; "search"; "find"]%string.

Definition time_words : list string :=
  ["today"; "tomorrow"; "yesterday"; "week"; "month"; "year"; "hour";
   "minute"; "day"; "now"; "later"; "before"; "after"; "since";
   "until"]%string.

Definition quantifier_words : list string :=
  ["all"; "every"; "each"; "most"; "some"; "many"; "few"]%string.

(** The test that opens [_calculate_prompt_complexity], on the
    lower-cased query. *)
Definition is_inferred_prompt (query : string) : bool :=
  Py.contains "[inferred]" query ||
  Py.contains "user request requiring" query ||
  Py.contains "unknown" query ||
  (Z.of_nat (String.length (Py.strip query)) <? 3).

Definition _calculate_prompt_complexity (interaction : MCPInteraction) : Z :=
  let query := Py.lower (user_query interaction) in
  if is_inferred_prompt query then 20
  else
    let complexity_score := 20 in
    let words := Py.split query in
    let word_count := Z.of_nat (List.length words) in
    let complexity_score :=
      if word_count >? 10 then complexity_score + 25
      else if word_count >? 5 then complexity_score + 15
      else if word_count >? 2 then complexity_score + 5
      else complexity_score in
    let technical_count := Py.count_in technical_indicators query in
    let complexity_score := complexity_score + technical_count * 8 in
    let logic_count := Py.count_in complexity_indicators query in
    let complexity_score := complexity_score + logic_count * 10 in
    let action_count := Py.count_in action_verbs query in
    let complexity_score :=
      if action_count >? 2 then complexity_score + (action_count - 1) * 12
      else complexity_score in
    let complexity_score :=
      if Py.any_in time_words query then complexity_score + 15
      else complexity_score in
    let complexity_score :=
      if Py.has_digit query || Py.any_in quantifier_words query
      then complexity_score + 10
      else complexity_score in
    Z.min complexity_score 100.

(** First loop of [_calculate_context_switching]: [last] is
    [last_direction] ([None] before the first message; every enum
    value is a non-empty string, hence true). *)
Fixpoint direction_changes (last : option MCPMessageDirection)
         (ms : list MCPMessageTrace) : Z :=
  match ms with
  | [] => 0
  | m :: r =>
      (match last with
       | Some d => if direction_eqb (direction m) d then 0 else 1
       | None => 0
       end) + direction_changes (Some (direction m)) r
  end.

(** Second loop: [last] is [last_method], a JSON value with [JNull]
    for [None]. *)
Fixpoint tool_changes (last : json) (ms : list MCPMessageTrace) : Z :=
  match ms with
  | [] => 0
  | m :: r =>
      let current_method := get "method" (payload m) in
      (if truthy current_method && truthy last &&
          negb (py_eqb current_method last)
       then 1 else 0)
      + tool_changes (if truthy current_method then current_method else last) r
  end.

Definition _calculate_context_switching (interaction : MCPInteraction) : Z :=
  let traces := message_traces interaction in
  if (List.length traces <? 2)%nat then 20
  else
    let switching_score := 0 in
    let switching_score := switching_score + direction_changes None traces * 10 in
    let switching_score := switching_score + tool_changes JNull traces * 15 in
    let switching_score :=
      if (switching_score =? 0) && (1 <? List.length traces)%nat
      then 5 else switching_score in
    Z.min switching_score 100.

(** The condition under which a message counts as an actual error. *)
Definition is_actual_error (m : MCPMessageTrace) : bool :=
  match error_code m with
  | Some c =>
      negb (String.eqb c EmptyString) &&
      (Py.startswith "4" c || Py.startswith "5" c ||
       existsb (String.eqb c) ["timeout"; "connection_error"; "parse_error"]%string)
  | None => false
  end.

Definition _calculate_retry_frustration (interaction : MCPInteraction)
  : Z * RetryBreakdown.t :=
  let frustration_score := 10 in
  let retry_penalty :=
    if (negb (retry_count interaction =? 0)) && (retry_count interaction >? 0)
    then retry_count interaction * 25 else 0 in
  let frustration_score := frustration_score + retry_penalty in
  let failure_penalty := if negb (success interaction) then 40 else 0 in
  let frustration_score := frustration_score + failure_penalty in
  let actual_error_count :=
    Z.of_nat (List.length (filter is_actual_error (message_traces interaction))) in
  let error_penalty := actual_error_count * 20 in
  let frustration_score := frustration_score + error_penalty in
  let latency_penalty :=
    match total_latency_ms interaction with
    | Some l =>
        if (l >? 0) && (l >? baseline_latency_ms * 2)
        then (if success interaction then 15 else 30)
        else 0
    | None => 0
    end in
  let frustration_score := frustration_score + latency_penalty in
  let final_score := Z.min frustration_score 100 in
  (final_score,
   {| RetryBreakdown.base_score := 10;
      RetryBreakdown.retry_penalty := retry_penalty;
      RetryBreakdown.retry_count := retry_count interaction;
      RetryBreakdown.failure_penalty := failure_penalty;
      RetryBreakdown.failed_interaction := negb (success interaction);
      RetryBreakdown.error_penalty := error_penalty;
      RetryBreakdown.actual_error_count := actual_error_count;
      RetryBreakdown.latency_penalty := latency_penalty;
      RetryBreakdown.latency_ms := total_latency_ms interaction;
      RetryBreakdown.latency_threshold_ms := baseline_latency_ms * 2 |}).

Definition error_code_in (codes : list string) (m : MCPMessageTrace) : bool :=
  match error_code m with
  | Some c => existsb (String.eqb c) codes
  | None => false
  end.

Definition is_auth_error (m : MCPMessageTrace) : bool :=
  error_code_in ["401"; "403"]%string m.

Definition is_param_error (m : MCPMessageTrace) : bool :=
  negb (is_auth_error m) && error_code_in ["400"; "422"]%string m.

(** An error message whose rendered payload names a configuration
    keyword. *)
Definition has_config_keyword (m : MCPMessageTrace) : bool :=
  match error_code m with
  | Some c =>
      negb (String.eqb c EmptyString) &&
      Py.any_in ["api key"; "token"; "auth"; "config"]%string
                (Py.lower (py_str (JDict (payload m))))
  | None => false
  end.

Definition _calculate_configuration_friction (interaction : MCPInteraction)
  : Z * ConfigBreakdown.t :=
  let friction_score := 10 in
  let traces := message_traces interaction in
  let auth_errors := Z.of_nat (List.length (filter is_auth_error traces)) in
  let param_errors := Z.of_nat (List.length (filter is_param_error traces)) in
  let friction_score := friction_score + auth_errors * 50 + param_errors * 30 in
  let config_keyword_count :=
    Z.of_nat (List.length (filter has_config_keyword traces)) in
  let friction_score := friction_score + config_keyword_count * 35 in
  let latency_penalty :=
    match total_latency_ms interaction with
    | Some l =>
        if l >? baseline_latency_ms * 3
        then (if success interaction then 10 else 25)
        else 0
    | None => 0
    end in
  let friction_score := friction_score + latency_penalty in
  let final_score := Z.min friction_score 100 in
  (final_score,
   {| ConfigBreakdown.base_score := 10;
      ConfigBreakdown.auth_penalty := auth_errors * 50;
      ConfigBreakdown.param_penalty := param_errors * 30;
      ConfigBreakdown.config_keyword_penalty := config_keyword_count * 35;
      ConfigBreakdown.latency_penalty := latency_penalty;
      ConfigBreakdown.latency_ms := total_latency_ms interaction;
      ConfigBreakdown.latency_threshold_ms := baseline_latency_ms * 3 |}).

(** [len(set(...))] over a list, for a type with a boolean equality. *)
Fixpoint distinct {A : Type} (eqb : A -> A -> bool) (l : list A) : list A :=
  match l with
  | [] => []
  | x :: r => if existsb (eqb x) r then distinct eqb r else x :: distinct eqb r
  end.

(** [_calculate_dict_depth(d)] *)
Definition _calculate_dict_depth (d : dict) : Z := dict_depth (JDict d) 0.

Definition _calculate_integration_cognition (interaction : MCPInteraction) : Z :=
  let traces := message_traces interaction in
  let integration_score := 20 in
  let protocols := distinct protocol_eqb (map protocol traces) in
  let integration_score :=
    if (1 <? List.length protocols)%nat then integration_score + 20
    else integration_score in
  let directions := distinct direction_eqb (map direction traces) in
  let integration_score :=
    integration_score + Z.of_nat (List.length directions) * 10 in
  let integration_score :=
    integration_score +
    Z.of_nat (List.length
      (filter (fun m => _calculate_dict_depth (payload m) >? 3) traces)) * 15 in
  Z.min integration_score 100.

Definition _calculate_overall_cognitive_load
           (prompt_complexity context_switching retry_frustration
            configuration_friction integration_cognition : Q) : Q :=
  let overall_score :=
    (prompt_complexity * Weights.prompt_complexity +
     context_switching * Weights.context_switching +
     retry_frustration * Weights.retry_frustration +
     configuration_friction * Weights.configuration_friction +
     integration_cognition * Weights.integration_cognition)%Q in
  Qmin overall_score 100.

(** The metrics returned from the [except] branch. *)
Definition default_metrics : CognitiveLoadMetrics :=
  {| overall_score := 50; prompt_complexity := 50; context_switching := 50;
     retry_frustration := 50; configuration_friction := 50;
     integration_cognition := 50;
     retry_breakdown := None; configuration_breakdown := None |}.

Definition analyze_interaction (interaction : MCPInteraction)
  : CognitiveLoadMetrics :=
  let prompt_complexity := _calculate_prompt_complexity interaction in
  let context_switching := _calculate_context_switching interaction in
  let '(retry_frustration, retry_breakdown) :=
    _calculate_retry_frustration interaction in
  let '(configuration_friction, config_breakdown) :=
    _calculate_configuration_friction interaction in
  let integration_cognition := _calculate_integration_cognition interaction in
  let overall_score :=
    _calculate_overall_cognitive_load
      (inject_Z prompt_complexity) (inject_Z context_switching)
      (inject_Z retry_frustration) (inject_Z configuration_friction)
      (inject_Z integration_cognition) in
  let metrics :=
    {| overall_score := overall_score;
       prompt_complexity := prompt_complexity;
       context_switching := context_switching;
       retry_frustration := retry_frustration;
       configuration_friction := configuration_friction;
       integration_cognition := integration_cognition;
       retry_breakdown := Some retry_breakdown;
       configuration_breakdown := Some config_breakdown |} in
  if validates metrics then metrics else default_metrics.

End Analyzer.

End Cognitive.

(* ===================================================================== *)
(** ** Exceptions *)
(* ===================================================================== *)

(** A computation that may raise: [None] stands for the exception leaving
    the function. *)
Definition bind {A B : Type} (c : option A) (k : A -> option B) : option B :=
  match c with
  | Some a => k a
  | None => None
  end.

Notation "x <- c ;; k" := (bind c (fun x => k))
  (at level 61, c at next level, right associativity).

Fixpoint mapM {A B : Type} (f : A -> option B) (l : list A) : option (list B) :=
  match l with
  | [] => Some []
  | x :: r => y <- f x ;; ys <- mapM f r ;; Some (y :: ys)
  end.

(* ===================================================================== *)
(** ** tracing/timeline_analyzer.py *)
(* ===================================================================== *)

Module Timeline.

(** One line of [mcp_audit_messages.jsonl] or [llm_decision_trace.jsonl]
    after loading: the loader adds [parsed_timestamp] and [source].  An
    option field is [None] when the line has no such key. *)
Record event : Type := {
  parsed_timestamp : Z;
  source : string;
  server_name : option string;
  direction : option string;
  payload : option dict;
  enhanced_context : option dict;
  user_prompt : option string;
  llm_reasoning : option string;
  tools_considered : list string;
  tools_selected : list string;
  tool_calls : list json;
  processing_time_ms : option Z;
  confidence_score : json;
  success : option bool
}.

(** [event.get('direction', '')], [event.get('payload', {})] *)
Definition direction_of (e : event) : string :=
  match direction e with Some d => d | None => EmptyString end.

Definition payload_of (e : event) : dict :=
  match payload e with Some p => p | None => [] end.

Definition opt_str_eqb (o : option string) (s : string) : bool :=
  match o with Some x => String.eqb x s | None => false end.

(** Entries of the lists and the dictionary built by
    [_create_flow_summary]. *)
Module Decision.
Record t : Type := {
  timestamp : Z;
  user_prompt : string;
  reasoning : string;
  tools_considered : list string;
  tools_selected : list string;
  tool_calls : list json;
  processing_time_ms : Z;
  confidence_score : json;
  success : bool
}.
End Decision.

Module McpCall.
Record t : Type := {
  timestamp : Z;
  server : string;
  tool : json;
  args : json
}.
End McpCall.

Module Entry.
Record t : Type := {
  timestamp : Z;
  type : string;
  source : string;
  server : string;
  content : json
}.
End Entry.

Module Flow.
Record t : Type := {
  flow_id : string;
  start_time : Z;
  end_time : Z;
  duration_ms : Q;
  event_count : nat;
  servers_involved : list string;
  cross_server_flow : bool;
  has_user_context : bool;
  user_prompt : json;
  user_timestamp : option Z;
  llm_reasoning : option string;
  llm_decisions : list Decision.t;
  mcp_calls : list McpCall.t;
  success : bool;
  timeline : list Entry.t
}.
End Flow.

Inductive Grade : Type := A | B | C | D | F.

(** The dictionary [avg_cognitive_load] that [generate_cognitive_analysis]
    returns under the key ['cognitive_load']. *)
Module CognitiveLoad.
Record t : Type := {
  overall_score : Q;
  prompt_complexity : Q;
  context_switching : Q;
  retry_frustration : Q;
  configuration_friction : Q;
  integration_cognition : Q;
  retry_breakdown : option Models.RetryBreakdown.t;
  configuration_breakdown : option Models.ConfigBreakdown.t;
  grade : Grade;
  friction_points : list string
}.
End CognitiveLoad.

(** [_time_gap_seconds]: [(time2 - time1).total_seconds()] *)
Definition _time_gap_seconds (event1 event2 : event) : Q :=
  (parsed_timestamp event2 - parsed_timestamp event1) # 1000000.

(** [_determine_flow_success] *)
Definition is_llm_success (e : event) : bool :=
  String.eqb (source e) "llm_decision" &&
  match success e with Some b => b | None => false end.

Definition is_tool_call (e : event) : bool :=
  opt_str_eqb (direction e) "llm→mcp_client" &&
  is_str "tools/call" (get "method" (payload_of e)).

Definition is_result_response (e : event) : bool :=
  Py.contains "server" (direction_of e) &&
  not_none (get "result" (payload_of e)).

Definition _determine_flow_success (flow_events : list event) : bool :=
  let llm_success := existsb is_llm_success flow_events in
  let has_tool_call := existsb is_tool_call flow_events in
  let has_response := existsb is_result_response flow_events in
  llm_success || (has_tool_call && has_response).

(** [_classify_event_type] *)
Definition _classify_event_type (e : event) : string :=
  if String.eqb (source e) "llm_decision" then
    if Py.contains "[Tool Discovery]"
         (match user_prompt e with Some p => p | None => EmptyString end)
    then "llm_tool_discovery"
    else match tools_selected e with
         | _ :: _ => "llm_tool_selection"
         | [] => "llm_reasoning"
         end
  else
    let direction := direction_of e in
    if String.eqb direction "user→llm" then "user_prompt"
    else if String.eqb direction "llm→mcp_client" then
      let method := get "method" (payload_of e) in
      if is_str "tools/call" method then "tool_call"
      else if is_str "initialize" method then "initialization"
      else "llm_request"
    else if Py.contains "server" direction then "mcp_response"
    else "other".

(** [payload.get('params', {})] followed by [.get]: the second [get]
    raises when [params] is present and is not a dictionary. *)
Definition params_of (p : dict) : option dict :=
  match dict_get "params" p with
  | None => Some []
  | Some (JDict d) => Some d
  | Some _ => None
  end.

(** [x[:100] + '...' if len(x) > 100 else x] *)
Definition clip (s : string) : string :=
  if (100 <? String.length s)%nat then String.append (Py.take 100 s) "..." else s.

Section WithStr.

(** [str(v)], used by f-strings. *)
Variable py_str : json -> string.

(** [_extract_event_content] *)
Definition _extract_event_content (e : event) : option json :=
  if String.eqb (source e) "llm_decision" then
    let reasoning := match llm_reasoning e with Some r => r | None => EmptyString end in
    match tools_selected e with
    | _ :: _ =>
        Some (JStr (String.append "Selected "
                (String.append (Py.join ", " (tools_selected e))
                   (String.append ": "
                      (String.append (Py.take 100 reasoning) "...")))))
    | [] => Some (JStr (clip reasoning))
    end
  else
    let direction := direction_of e in
    let payload := payload_of e in
    if String.eqb direction "user→llm" then
      match get_default "content" (JStr EmptyString) payload with
      | JStr s => Some (JStr (clip s))
      | JList l => if (100 <? List.length l)%nat then None else Some (JList l)
      | JDict d => if (100 <? List.length d)%nat then None else Some (JDict d)
      | _ => None
      end
    else if String.eqb direction "llm→mcp_client" then
      let method := get "method" payload in
      if is_str "tools/call" method then
        params <- params_of payload ;;
        Some (JStr (String.append "Call " (py_str (get "name" params))))
      else Some (if truthy method then method else JStr "Unknown request")
    else Some (get_default "method" (JStr "Response") payload).

(** Loop of [_create_flow_summary] over the events of a flow.  The
    state is ([user_prompt], [user_timestamp], [llm_reasoning]). *)
Definition prompt_state : Type := (json * option Z * option string)%type.

Definition update_prompt (st : prompt_state) (e : event) : prompt_state :=
  let '(user_prompt_, user_timestamp_, llm_reasoning_) := st in
  if String.eqb (source e) "llm_decision" then
    match user_prompt e with
    | Some p =>
        if negb (truthy user_prompt_) && negb (String.eqb p EmptyString)
        then (JStr p, Some (parsed_timestamp e),
              Some (match llm_reasoning e with Some r => r | None => EmptyString end))
        else st
    | None => st
    end
  else if String.eqb (source e) "mcp_audit" then
    if opt_str_eqb (direction e) "user→llm" then
      if negb (truthy user_prompt_)
      then (get "content" (payload_of e), Some (parsed_timestamp e), llm_reasoning_)
      else st
    else st
  else st.

Definition decision_of (e : event) : Decision.t :=
  {| Decision.timestamp := parsed_timestamp e;
     Decision.user_prompt := match user_prompt e with Some p => p | None => EmptyString end;
     Decision.reasoning := match llm_reasoning e with Some r => r | None => EmptyString end;
     Decision.tools_considered := tools_considered e;
     Decision.tools_selected := tools_selected e;
     Decision.tool_calls := tool_calls e;
     Decision.processing_time_ms := match processing_time_ms e with Some t => t | None => 0 end;
     Decision.confidence_score := confidence_score e;
     Decision.success := match success e with Some b => b | None => true end |}.

Definition server_of (e : event) : string :=
  match server_name e with Some s => s | None => "unknown" end.

Definition is_mcp_tool_call (e : event) : bool :=
  String.eqb (source e) "mcp_audit" &&
  negb (opt_str_eqb (direction e) "user→llm") &&
  is_tool_call e.

(** The entry appended to [mcp_calls] for a tool call. *)
Definition call_of (e : event) : option McpCall.t :=
  params <- params_of (payload_of e) ;;
  Some {| McpCall.timestamp := parsed_timestamp e;
          McpCall.server := server_of e;
          McpCall.tool :=
            get "tool_name" (match enhanced_context e with Some c => c | None => [] end);
          McpCall.args := get_default "arguments" (JDict []) params |}.

Fixpoint calls_of (es : list event) : option (list McpCall.t) :=
  match es with
  | [] => Some []
  | e :: r =>
      if is_mcp_tool_call e
      then c <- call_of e ;; cs <- calls_of r ;; Some (c :: cs)
      else calls_of r
  end.

Definition entry_of (e : event) : option Entry.t :=
  content <- _extract_event_content e ;;
  Some {| Entry.timestamp := parsed_timestamp e;
          Entry.type := _classify_event_type e;
          Entry.source := source e;
          Entry.server := match server_name e with Some s => s | None => "N/A" end;
          Entry.content := content |}.

(** [set.add] on a list without duplicates.  Python leaves the order
    of [list(servers_involved)] open; the list here keeps the order of
    first insertion. *)
Definition set_add (s : string) (l : list string) : list string :=
  if existsb (String.eqb s) l then l else (l ++ [s])%list.

(** Decimal rendering of an integer, as in an f-string. *)
Definition decimal (z : Z) : string :=
  NilZero.string_of_int (Z.to_int z).

(** [_create_flow_summary] on the non-empty list [first :: rest]; the
    source answers [{}] to an empty list, which no caller passes. *)
Definition _create_flow_summary (first : event) (rest : list event)
  : option Flow.t :=
  let flow_events := first :: rest in
  let start_time := parsed_timestamp first in
  let end_time := parsed_timestamp (List.last rest first) in
  let duration_ms := ((end_time - start_time) # 1000)%Q in
  let '(user_prompt_, user_timestamp_, llm_reasoning_) :=
    fold_left update_prompt flow_events (JNull, None, None) in
  let llm_decisions :=
    map decision_of
        (filter (fun e => String.eqb (source e) "llm_decision") flow_events) in
  let servers_involved :=
    fold_left (fun s e => set_add (server_of e) s)
              (filter (fun e => String.eqb (source e) "mcp_audit") flow_events)
              [] in
  mcp_calls <- calls_of flow_events ;;
  timeline <- mapM entry_of flow_events ;;
  Some {| Flow.flow_id := String.append "flow_" (decimal (Z.quot start_time 1000000));
          Flow.start_time := start_time;
          Flow.end_time := end_time;
          Flow.duration_ms := duration_ms;
          Flow.event_count := List.length flow_events;
          Flow.servers_involved := servers_involved;
          Flow.cross_server_flow := (1 <? List.length servers_involved)%nat;
          Flow.has_user_context := not_none user_prompt_;
          Flow.user_prompt := user_prompt_;
          Flow.user_timestamp := user_timestamp_;
          Flow.llm_reasoning := llm_reasoning_;
          Flow.llm_decisions := llm_decisions;
          Flow.mcp_calls := mcp_calls;
          Flow.success := _determine_flow_success flow_events;
          Flow.timeline := timeline |}.

(** [group_into_flows]: the loop over [timeline_events] with its two
    variables, then the last flow. *)
Definition summarize (current_flow : list event) : option (list Flow.t) :=
  match current_flow with
  | [] => Some []
  | first :: rest => f <- _create_flow_summary first rest ;; Some [f]
  end.

Fixpoint group_loop (time_window_seconds : Z) (timeline_events : list event)
         (flows : list Flow.t) (current_flow : list event) {struct timeline_events}
  : option (list Flow.t) :=
  match timeline_events with
  | [] =>
      fs <- summarize current_flow ;; Some (flows ++ fs)%list
  | event :: more =>
      if match current_flow with
         | [] => true
         | first :: rest =>
             negb (Qle_bool (_time_gap_seconds (List.last rest first) event)
                            (inject_Z time_window_seconds))
         end
      then
        fs <- summarize current_flow ;;
        group_loop time_window_seconds more (flows ++ fs)%list [event]
      else
        group_loop time_window_seconds more flows (current_flow ++ [event])%list
  end.

Definition group_into_flows (time_window_seconds : Z)
           (timeline_events : list event) : option (list Flow.t) :=
  match timeline_events with
  | [] => Some []
  | _ => group_loop time_window_seconds timeline_events [] []
  end.

(** [TimelineAnalyzer.__init__]: the default window. *)
Definition default_time_window_seconds : Z := 30.

(** [int(x)] of a float: truncation toward zero. *)
Definition int_of (x : Q) : Z := Z.quot (Qnum x) (Zpos (Qden x)).

Definition inferred_query : string :=
  "[Inferred] User request requiring tool usage".

(** The [user_query] chosen by [_convert_flows_to_interactions] from
    [flow.get('user_prompt')]; [None] when [startswith] is applied to
    a value that is not a string. *)
Definition user_query_of (prompt : json) : option string :=
  if negb (truthy prompt) then Some inferred_query
  else match prompt with
       | JStr s =>
           if String.eqb s inferred_query ||
              Py.startswith "[Tool Discovery]" s ||
              String.eqb s "Unknown user request"
           then Some inferred_query
           else Some s
       | _ => None
       end.

Definition first_server (flow : Flow.t) : string :=
  match Flow.servers_involved flow with
  | s :: _ => s
  | [] => "unknown"
  end.

Definition latency_of (duration_ms : Q) : option Z :=
  if Qeq_bool duration_ms 0 then None else Some (int_of duration_ms).

Definition trace_of_call (flow : Flow.t) (call : McpCall.t)
  : Models.MCPMessageTrace :=
  {| Models.timestamp := Flow.start_time flow;
     Models.direction := Models.LLM_TO_MCP_CLIENT;
     Models.protocol := Models.JSON_RPC;
     Models.payload := [("method", McpCall.tool call);
                        ("params", McpCall.args call)]%string;
     Models.error_code := None;
     Models.latency_ms := latency_of (Flow.duration_ms flow);
     Models.retry_attempt := None |}.

Definition trace_of_flow (flow : Flow.t) : Models.MCPMessageTrace :=
  {| Models.timestamp := Flow.start_time flow;
     Models.direction := Models.LLM_TO_MCP_CLIENT;
     Models.protocol := Models.JSON_RPC;
     Models.payload := [("method", JStr "user_interaction");
                        ("flow_type", Flow.user_prompt flow)]%string;
     Models.error_code := None;
     Models.latency_ms := latency_of (Flow.duration_ms flow);
     Models.retry_attempt := None |}.

(** Body of the loop of [_convert_flows_to_interactions] for one
    flow; [None] when it raises. *)
Definition convert_flow (flow : Flow.t) : option Models.MCPInteraction :=
  let duration_ms := Flow.duration_ms flow in
  let message_traces := map (trace_of_call flow) (Flow.mcp_calls flow) in
  let message_traces :=
    match message_traces with
    | [] => [trace_of_flow flow]
    | _ => message_traces
    end in
  user_query <- user_query_of (Flow.user_prompt flow) ;;
  Some {| Models.session_id := Flow.flow_id flow;
          Models.server_name := first_server flow;
          Models.user_query := user_query;
          Models.start_time := Flow.start_time flow;
          Models.end_time := Some (Flow.end_time flow);
          Models.message_traces := message_traces;
          Models.success := Flow.success flow;
          Models.total_latency_ms := Some (int_of duration_ms);
          Models.retry_count := 0;
          Models.user_context :=
            Some [("flow_type", JStr "timeline_based");
                  ("tools_used", JList (map McpCall.tool (Flow.mcp_calls flow)));
                  ("llm_reasoning",
                   match Flow.llm_reasoning flow with
                   | Some r => JStr r
                   | None => JNull
                   end);
                  ("cross_server_flow", JBool (Flow.cross_server_flow flow))]%string |}.

(** [_convert_flows_to_interactions]: the whole loop sits in one
    [try]; an exception ends it and the interactions built so far are
    returned. *)
Fixpoint _convert_flows_to_interactions (flows : list Flow.t)
  : list Models.MCPInteraction :=
  match flows with
  | [] => []
  | flow :: more =>
      match convert_flow flow with
      | Some interaction => interaction :: _convert_flows_to_interactions more
      | None => []
      end
  end.

(** [round(x, 1)]: nearest multiple of one tenth, ties to the even
    one. *)
Definition round_half_even (x : Q) : Z :=
  let f := Qfloor x in
  match Qcompare (x - inject_Z f) (1 # 2) with
  | Lt => f
  | Gt => f + 1
  | Eq => if Z.even f then f else f + 1
  end.

Definition round1 (x : Q) : Q := round_half_even (x * 10) # 10.

(** [x or 50.0] *)
Definition or50 (x : Q) : Q := if Qeq_bool x 0 then 50 else x.

Definition Qsum (l : list Q) : Q := fold_left Qplus l 0%Q.

(** [round(sum(...) / len(cognitive_loads), 1)] *)
Definition average (l : list Q) : Q :=
  round1 (Qsum l / inject_Z (Z.of_nat (List.length l))).

(** The [if]/[elif] chain on [overall_score]. *)
Definition grade_of (overall_score : Q) : Grade :=
  if Qle_bool overall_score 20 then A
  else if Qle_bool overall_score 40 then B
  else if Qle_bool overall_score 60 then C
  else if Qle_bool overall_score 80 then D
  else F.

(** [avg.get(k, 0) and avg[k] > 60] *)
Definition exceeds_60 (x : Q) : bool :=
  negb (Qeq_bool x 0) && negb (Qle_bool x 60).

Definition friction_points_of
           (prompt context retry config integration : Q) : list string :=
  let friction_points :=
    ((if exceeds_60 prompt then ["High prompt complexity detected"] else []) ++
     (if exceeds_60 context then ["Frequent context switching required"] else []) ++
     (if exceeds_60 retry then ["Users experiencing retry frustration"] else []) ++
     (if exceeds_60 config then ["Configuration complexity causing friction"] else []) ++
     (if exceeds_60 integration then ["Tool integration complexity"] else []))%list%string in
  match friction_points with
  | [] => ["No significant friction points detected"]%string
  | _ => friction_points
  end.

(** The validation step of the loop: [x = x or 50.0] on every score
    of the metrics object. *)
Definition or50z (x : Z) : Z := if x =? 0 then 50 else x.

Definition adjust (m : Models.CognitiveLoadMetrics) : Models.CognitiveLoadMetrics :=
  {| Models.overall_score := or50 (Models.overall_score m);
     Models.prompt_complexity := or50z (Models.prompt_complexity m);
     Models.context_switching := or50z (Models.context_switching m);
     Models.retry_frustration := or50z (Models.retry_frustration m);
     Models.configuration_friction := or50z (Models.configuration_friction m);
     Models.integration_cognition := or50z (Models.integration_cognition m);
     Models.retry_breakdown := Models.retry_breakdown m;
     Models.configuration_breakdown := Models.configuration_breakdown m |}.

Definition average_of (f : Models.CognitiveLoadMetrics -> Z)
           (l : list Models.CognitiveLoadMetrics) : Q :=
  average (map (fun m => inject_Z (f m)) l).

(** [generate_cognitive_analysis], the entry ['cognitive_load'] of its
    result (the insight sentences and the static [grade_calculation]
    table are left out).  The [except] branch of the source, which
    answers overall score 50 with grade C, is not reached: the calls
    in the [try] block catch their own exceptions. *)
Definition generate_cognitive_analysis (flows : list Flow.t) : CognitiveLoad.t :=
  let interactions := _convert_flows_to_interactions flows in
  match interactions with
  | [] =>
      {| CognitiveLoad.overall_score := 0;
         CognitiveLoad.prompt_complexity := 0;
         CognitiveLoad.context_switching := 0;
         CognitiveLoad.retry_frustration := 0;
         CognitiveLoad.configuration_friction := 0;
         CognitiveLoad.integration_cognition := 0;
         CognitiveLoad.retry_breakdown := None;
         CognitiveLoad.configuration_breakdown := None;
         CognitiveLoad.grade := F;
         CognitiveLoad.friction_points := ["No interactions to analyze"]%string |}
  | first :: rest =>
      let cognitive_loads :=
        map (fun i => adjust (Cognitive.analyze_interaction py_str i)) interactions in
      let latest_load :=
        List.last (map (fun i => adjust (Cognitive.analyze_interaction py_str i)) rest)
                  (adjust (Cognitive.analyze_interaction py_str first)) in
      let overall_score := average (map Models.overall_score cognitive_loads) in
      let prompt := average_of Models.prompt_complexity cognitive_loads in
      let context := average_of Models.context_switching cognitive_loads in
      let retry := average_of Models.retry_frustration cognitive_loads in
      let config := average_of Models.configuration_friction cognitive_loads in
      let integration := average_of Models.integration_cognition cognitive_loads in
      {| CognitiveLoad.overall_score := overall_score;
         CognitiveLoad.prompt_complexity := prompt;
         CognitiveLoad.context_switching := context;
         CognitiveLoad.retry_frustration := retry;
         CognitiveLoad.configuration_friction := config;
         CognitiveLoad.integration_cognition := integration;
         CognitiveLoad.retry_breakdown := Models.retry_breakdown latest_load;
         CognitiveLoad.configuration_breakdown := Models.configuration_breakdown latest_load;
         CognitiveLoad.grade := grade_of overall_score;
         CognitiveLoad.friction_points :=
           friction_points_of prompt context retry config integration |}
  end.

End WithStr.

End Timeline.

(* ===================================================================== *)
(** ** interceptors/mcp_proxy.py and interceptors/mcp_proxy_runner.py *)
(* ===================================================================== *)

(** The [logging] set-up of a process, as far as the standard streams are
    concerned: the level of the root logger and whether one of its
    handlers is a [StreamHandler(sys.stdout)]. *)
Module Logging.

Inductive level : Type := DEBUG | INFO | WARNING | ERROR.

Definition rank (l : level) : nat :=
  match l with DEBUG => 10 | INFO => 20 | WARNING => 30 | ERROR => 40 end.

Record config : Type := {
  root_level : level;
  stream_to_stdout : bool
}.

(** A record passes when its level is at least the root level. *)
Definition enabled (c : config) (l : level) : bool :=
  (rank (root_level c) <=? rank l)%nat.

(** A [StreamHandler] writes the formatted record and its terminator. *)
Definition terminator : string := String (ascii_of_nat 10) EmptyString.

End Logging.

Module Proxy.
Import Models.

(** [subprocess.Popen(..., stdin=PIPE, stdout=PIPE, stderr=PIPE)]: which
    of the three pipes the handle carries. *)
Record Popen : Type := {
  has_stdin : bool;
  has_stdout : bool;
  has_stderr : bool
}.

(** One line of [mcp_audit_messages.jsonl], the dictionary
    [message_data] of the runner's callback. *)
Module MessageData.
Record t : Type := {
  timestamp : Z;
  server_name : string;
  server_process_id : Z;
  direction : string;
  protocol : string;
  payload : dict;
  latency_ms : option Z;
  error_code : option string;
  llm_initiated : bool;
  tool_method : json;
  tool_name : json
}.
End MessageData.

(** What the proxy process acts on: the bytes it has written to the
    child's stdin and to its own stdout, and the lines appended to the
    message store. *)
Record world : Type := {
  server_stdin : string;
  stdout : string;
  messages_file : list MessageData.t
}.

(** The records the two modules log. *)
Inductive log_record : Type :=
| Captured (direction : MCPMessageDirection) (method : json)
| NonJsonMessage (message : string)
| ErrorCapturing
| EnhancedAudit (server_name : string) (direction : MCPMessageDirection) (method : json)
| ErrorInCallback.

Definition level_of (r : log_record) : Logging.level :=
  match r with
  | Captured _ _ => Logging.INFO
  | NonJsonMessage _ => Logging.DEBUG
  | ErrorCapturing => Logging.ERROR
  | EnhancedAudit _ _ _ => Logging.INFO
  | ErrorInCallback => Logging.ERROR
  end.

(** [class MCPProxy]: the fields the forwarding paths use. *)
Record MCPProxy : Type := {
  server_process : option Popen;
  captured_messages : list MCPMessageTrace;
  message_counter : Z
}.

Section Process.

(** [json.loads]; [None] for [JSONDecodeError]. *)
Variable json_loads : string -> option json.

(** The formatter of the logging configuration (time stamp, logger
    name, level name, message). *)
Variable format : log_record -> string.

Variable logging : Logging.config.

(** [logger.info(...)], [logger.debug(...)], [logger.error(...)] *)
Definition log (r : log_record) (w : world) : world :=
  if Logging.enabled logging (level_of r) && Logging.stream_to_stdout logging
  then {| server_stdin := server_stdin w;
          stdout := String.append (stdout w)
                      (String.append (format r) Logging.terminator);
          messages_file := messages_file w |}
  else w.

(** [self.audit_callback]: [None] when no callback was given; a
    callback answers [None] when it raises. *)
Variable audit_callback : option (MCPMessageTrace -> world -> option world).

(** [MCPProxy._capture_message(message, direction)] at clock reading
    [now].  The subclass [EnhancedMCPProxy] of the runner calls this
    method first and then analyses the message a second time, logging
    records of its own; that second part is not modelled. *)
Definition _capture_message (now : Z) (message : string)
           (direction : MCPMessageDirection)
           (self : MCPProxy) (w : world) : MCPProxy * world :=
  if String.eqb (Py.strip message) EmptyString then (self, w)
  else
    match json_loads message with
    | None => (self, log (NonJsonMessage (Py.take 100 message)) w)
    | Some (JDict json_data) =>
        let trace :=
          {| direction := direction;
             protocol := JSON_RPC;
             payload := json_data;
             timestamp := now;
             latency_ms := None;
             error_code := None;
             retry_attempt := None |} in
        let self :=
          {| server_process := server_process self;
             captured_messages := (captured_messages self ++ [trace])%list;
             message_counter := message_counter self + 1 |} in
        match audit_callback with
        | None =>
            (self, log (Captured direction (get_default "method" (JStr "response") json_data)) w)
        | Some callback =>
            match callback trace w with
            | Some w =>
                (self, log (Captured direction (get_default "method" (JStr "response") json_data)) w)
            | None => (self, log ErrorCapturing w)
            end
        end
    | Some _ =>
        (* [payload] must be a dictionary: the model constructor raises *)
        (self, log ErrorCapturing w)
    end.

Definition write_server_stdin (line : string) (w : world) : world :=
  {| server_stdin := String.append (server_stdin w) line;
     stdout := stdout w;
     messages_file := messages_file w |}.

Definition write_stdout (line : string) (w : world) : world :=
  {| server_stdin := server_stdin w;
     stdout := String.append (stdout w) line;
     messages_file := messages_file w |}.

(** One turn of the [while True] of [_forward_stdin_to_server] on the
    string [line] that [sys.stdin.readline()] returned, captured at
    clock reading [now]; [None] is [break].  Pipes accept every
    write. *)
Definition stdin_turn (line : string) (now : Z)
           (self : MCPProxy) (w : world) : option (MCPProxy * world) :=
  if String.eqb line EmptyString then None
  else
    let '(self, w) :=
      _capture_message now (Py.strip line) LLM_TO_MCP_CLIENT self w in
    let w :=
      match server_process self with
      | Some p => if has_stdin p then write_server_stdin line w else w
      | None => w
      end in
    Some (self, w).

(** One turn of the [while True] of [_forward_server_to_stdout]; the
    line is what [self.server_process.stdout.readline()] returned. *)
Definition stdout_turn (line : string) (now : Z)
           (self : MCPProxy) (w : world) : option (MCPProxy * world) :=
  match server_process self with
  | None => None
  | Some p =>
      if negb (has_stdout p) then None
      else if String.eqb line EmptyString then None
      else
        let '(self, w) :=
          _capture_message now (Py.strip line) MCP_CLIENT_TO_SERVER self w in
        Some (self, write_stdout line w)
  end.

(** A loop: [reads] lists what the successive [readline()] return,
    each with the clock reading at its capture; at the end of the list
    [readline] returns ['']. *)
Fixpoint forward (turn : string -> Z -> MCPProxy -> world -> option (MCPProxy * world))
         (reads : list (string * Z)) (self : MCPProxy) (w : world)
  : MCPProxy * world :=
  match reads with
  | [] => (self, w)
  | (line, now) :: more =>
      match turn line now self w with
      | None => (self, w)
      | Some (self, w) => forward turn more self w
      end
  end.

Definition _forward_stdin_to_server := forward stdin_turn.

Definition _forward_server_to_stdout := forward stdout_turn.

(** What the host and the child feed the proxy, in the order the
    event loop serves it. *)
Inductive read : Type :=
| HostLine (line : string) (now : Z)
| ServerLine (line : string) (now : Z).

(** [asyncio.gather(self._forward_stdin_to_server(),
    self._forward_server_to_stdout(), ...)]: the two loops take turns
    as their lines arrive; a turn runs from one [readline] to the
    next without giving way.  [in_path] and [out_path] tell which
    loops have not left yet. *)
Fixpoint gather (schedule : list read) (in_path out_path : bool)
         (self : MCPProxy) (w : world) : MCPProxy * world :=
  match schedule with
  | [] => (self, w)
  | HostLine line now :: more =>
      if in_path then
        match stdin_turn line now self w with
        | None => gather more false out_path self w
        | Some (self, w) => gather more true out_path self w
        end
      else gather more in_path out_path self w
  | ServerLine line now :: more =>
      if out_path then
        match stdout_turn line now self w with
        | None => gather more in_path false self w
        | Some (self, w) => gather more in_path true self w
        end
      else gather more in_path out_path self w
  end.

End Process.

(** [start_proxy_server] opens the child with its three pipes. *)
Definition started : MCPProxy :=
  {| server_process := Some {| has_stdin := true; has_stdout := true; has_stderr := true |};
     captured_messages := [];
     message_counter := 0 |}.

End Proxy.

Module Runner.
Import Models Proxy.

(** The module-level [logging.basicConfig(level=logging.INFO, ...,
    handlers=[FileHandler(...), StreamHandler(sys.stdout)])]. *)
Definition logging : Logging.config :=
  {| Logging.root_level := Logging.INFO; Logging.stream_to_stdout := true |}.

Section Callback.

Variable format : log_record -> string.
Variable logging_config : Logging.config.

(** [enhanced_audit_message_callback(trace, server_name)] run in the
    process [server_process_id]: it catches its own exceptions, so it
    always returns. *)
Definition enhanced_audit_message_callback
           (server_name : string) (server_process_id : Z)
           (trace : MCPMessageTrace) (w : world) : option world :=
  let method := get "method" (payload trace) in
  match
    (if is_str "tools/call" method
     then params <- Timeline.params_of (payload trace) ;; Some (get "name" params)
     else Some JNull)
  with
  | Some tool_name =>
      let message_data :=
        {| MessageData.timestamp := timestamp trace;
           MessageData.server_name := server_name;
           MessageData.server_process_id := server_process_id;
           MessageData.direction := direction_value (direction trace);
           MessageData.protocol := protocol_value (protocol trace);
           MessageData.payload := payload trace;
           MessageData.latency_ms := latency_ms trace;
           MessageData.error_code := error_code trace;
           MessageData.llm_initiated :=
             String.eqb (direction_value (direction trace)) "llm_to_mcp_client";
           MessageData.tool_method := method;
           MessageData.tool_name := tool_name |} in
      let w :=
        {| server_stdin := server_stdin w;
           stdout := stdout w;
           messages_file := (messages_file w ++ [message_data])%list |} in
      Some (log format logging_config
                (EnhancedAudit server_name (direction trace)
                   (get_default "method" (JStr "response") (payload trace))) w)
  | None => Some (log format logging_config ErrorInCallback w)
  end.

End Callback.

End Runner.

(* ===================================================================== *)
(** ** The launch records of the host: [.cursor/mcp.json] *)
(* ===================================================================== *)

Module Config.

(** One value of the [mcpServers] mapping.  A field is [None] when the
    record has no such key; [extra] holds its other keys. *)
Record server : Type := {
  command : option string;
  args : option (list string);
  cwd : option string;
  env : option (list (string * string));
  extra : dict
}.

(** The document: [mcpServers] and the other top-level keys. *)
Record t : Type := {
  mcpServers : option (list (string * server));
  others : dict
}.




Definition runner_module : string := "mcp_audit.interceptors.mcp_proxy_runner".

End Config.

Module Manager.
Import Config.

(** A configuration file: absent, not JSON, or a document. *)
Inductive file : Type :=
| Missing
| Malformed
| Document (c : Config.t).

(** The two places of the configuration and what the process sees of
    its surroundings. *)
Record host : Type := {
  project_config : file;       (* .cursor/mcp.json *)
  global_config : file;        (* ~/.cursor/mcp.json *)
  current_directory : string;  (* Path.cwd() *)
  venv_python_exists : bool;   (* .venv/bin/python exists *)
  which_python3 : bool;        (* shutil.which("python3") *)
  which_python : bool          (* shutil.which("python") *)
}.



(** [str(Path.cwd() / ".venv" / "bin" / "python")] *)
Definition venv_python (h : host) : string :=
  String.append
    (if String.eqb (current_directory h) "/" then EmptyString else current_directory h)
    "/.venv/bin/python".

Definition python_cmd (h : host) : string :=
  if venv_python_exists h then venv_python h
  else if which_python3 h then "python3"
  else if which_python h then "python"
  else "python3".

(** The record written in place of [original_server]. *)
Definition proxied (h : host) (server_name : string) (original_server : server)
  : server :=
  let original_args := match args original_server with Some a => a | None => [] end in
  let proxy_args :=
    (["-m"; runner_module; "--target-command";
      match command original_server with Some c => c | None => EmptyString end;
      "--target-args"]%string ++ original_args)%list in
  let original_cwd :=
    match cwd original_server with Some c => c | None => current_directory h end in
  {| command := Some (python_cmd h);
     args := Some proxy_args;
     cwd := Some original_cwd;
     env := Some [("MCP_TARGET_CWD", original_cwd);
                  ("MCP_SERVER_NAME", server_name)]%string;
     extra := [] |}.






End Manager.

(* ===================================================================== *)
(** ** utils/fix_recursive_config.py *)
(* ===================================================================== *)

Module FixRecursive.
Import Config.

Definition inspect {A : Type} (a : A) : {b : A | a = b} := exist _ a eq_refl.

(** The condition of the [while] loop. *)
Definition is_proxy_args (current_args : list string) : bool :=
  match current_args with
  | a0 :: a1 :: _ => String.eqb a0 "-m" && String.eqb a1 runner_module
  | _ => false
  end.

(** The [try] block of the loop body: the command and the arguments
    found behind the two markers; [None] for [ValueError] or
    [IndexError]. *)
Definition peel (current_args : list string) : option (string * list string) :=
  target_cmd_idx <- Py.index "--target-command" current_args ;;
  target_args_idx <- Py.index "--target-args" current_args ;;
  original_command <- nth_error current_args (target_cmd_idx + 1) ;;
  Some (original_command, skipn (target_args_idx + 1) current_args).

Lemma index_lt (x : string) (l : list string) (i : nat) :
  Py.index x l = Some i -> (i < List.length l)%nat.
Proof.
  revert i. induction l as [|y r IH]; intros i H; simpl in H.
  - discriminate.
  - destruct (String.eqb y x).
    + injection H as <-. simpl. lia.
    + destruct (Py.index x r) as [j|]; simpl in H; [|discriminate].
      injection H as <-. specialize (IH j eq_refl). simpl. lia.
Qed.

Lemma peel_shorter (current_args : list string) (c : string) (rest : list string) :
  peel current_args = Some (c, rest) ->
  (List.length rest < List.length current_args)%nat.
Proof.
  unfold peel, bind. intros H.
  destruct (Py.index "--target-command" current_args) as [i|]; [|discriminate].
  destruct (Py.index "--target-args" current_args) as [j|] eqn:Hj; [|discriminate].
  destruct (nth_error current_args (i + 1)) as [x|]; [|discriminate].
  injection H as _ <-.
  apply index_lt in Hj. rewrite length_skipn. lia.
Qed.

(** The loop of [extract_original_from_proxy_args] with its two
    variables, and the [return] after it. *)
Equations? extract_loop (current_args : list string) (depth : nat)
  : option string * option (list string) * nat
  by wf (List.length current_args) lt :=
  extract_loop current_args depth with is_proxy_args current_args := {
    | false => (hd_error current_args, Some (tl current_args), depth)
    | true with inspect (peel current_args) := {
        | exist _ None _ => (None, None, S depth)
        | exist _ (Some (original_command, original_args)) Hpeel
          with String.eqb original_command "python" &&
               (2 <=? List.length original_args)%nat := {
            | true => extract_loop original_args (S depth)
            | false => (Some original_command, Some original_args, S depth) } } }.
Proof.
  eapply peel_shorter; eassumption.
Qed.

Definition extract_original_from_proxy_args (args : list string)
  : option string * option (list string) * nat :=
  extract_loop args 0.

(** The dictionary [results] of [detect_recursive_config]. *)
Record detection : Type := {
  is_recursive : bool;
  recursion_depth : nat;
  original_command : option string;
  original_args : option (list string);
  server_name : option string
}.

Definition no_detection : detection :=
  {| is_recursive := false; recursion_depth := 0; original_command := None;
     original_args := None; server_name := None |}.

(** The loop over [config["mcpServers"].items()], left at the first
    proxy record. *)
Fixpoint detect_in (servers : list (string * server)) : detection :=
  match servers with
  | [] => no_detection
  | (name, server_config) :: more =>
      let command := match command server_config with Some c => c | None => EmptyString end in
      let args := match args server_config with Some a => a | None => [] end in
      if String.eqb command "python" && is_proxy_args args then
        let '(original_command, original_args, depth) :=
          extract_original_from_proxy_args args in
        {| is_recursive := true;
           recursion_depth := depth;
           original_command := original_command;
           original_args := original_args;
           server_name := Some name |}
      else detect_in more
  end.

Definition detect_recursive_config (config : Config.t) : detection :=
  match mcpServers config with
  | None => no_detection
  | Some servers => detect_in servers
  end.

End FixRecursive.

(* ===================================================================== *)
(** ** The specification's own wording of three rules *)
(* ===================================================================== *)

(** These definitions follow the sentences of the specification, not the
    sources; they are what the code is compared with. *)
Module Spec.

(** "Add by word count (>2:+5, >5:+15, >10:+25)". *)
Definition word_count_bonus (word_count : Z) : Z :=
  if word_count >? 10 then 25
  else if word_count >? 5 then 15
  else if word_count >? 2 then 5
  else 0.

(** Prompt complexity as specified: base 20, the word-count bonus, 8 per
    technical-term hit, 10 per logic-term hit, 12 per action-verb hit
    beyond 2, 15 for a temporal word, 10 for a number or a quantifier,
    at most 100; inferred and placeholder prompts score 20. *)
Definition prompt_complexity (user_query : string) : Z :=
  let query := Py.lower user_query in
  if Cognitive.is_inferred_prompt query then 20
  else
    Z.min 100
      (20
       + word_count_bonus (Z.of_nat (List.length (Py.split query)))
       + 8 * Py.count_in Cognitive.technical_indicators query
       + 10 * Py.count_in Cognitive.complexity_indicators query
       + 12 * Z.max 0 (Py.count_in Cognitive.action_verbs query - 2)
       + (if Py.any_in Cognitive.time_words query then 15 else 0)
       + (if Py.has_digit query || Py.any_in Cognitive.quantifier_words query
          then 10 else 0)).



(** Rule P9: the latency of a response is the time from its request,
    in milliseconds (time stamps are in microseconds). *)
Definition latency_ms (request response : Proxy.MessageData.t) : Z :=
  (Proxy.MessageData.timestamp response - Proxy.MessageData.timestamp request) / 1000.

End Spec.

(* ===================================================================== *)
(** ** Concrete runs *)
(* ===================================================================== *)

(** Events, lines and launch records of the end-to-end scenarios, used
    below to run the definitions. *)
Module Scenario.
Import Timeline.

(** [str] on the values the runs render, which are strings; any other
    value shows as [?]. *)
Definition py_str (v : json) : string :=
  match v with JStr s => s | _ => "?" end.

(** A line of [mcp_audit_messages.jsonl] as the proxy writes it. *)
Definition message (at_us : Z) (server direction : string) (payload : dict)
  : event :=
  {| parsed_timestamp := at_us;
     source := "mcp_audit";
     server_name := Some server;
     direction := Some direction;
     payload := Some payload;
     enhanced_context :=
       Some [("llm_initiated", JBool false);
             ("tool_method", get "method" payload);
             ("tool_name",
              if is_str "tools/call" (get "method" payload)
              then match get "params" payload with
                   | JDict params => get "name" params
                   | _ => JNull
                   end
              else JNull)]%string;
     user_prompt := None;
     llm_reasoning := None;
     tools_considered := [];
     tools_selected := [];
     tool_calls := [];
     processing_time_ms := None;
     confidence_score := JNull;
     success := None |}.

Definition t0 : Z := 1700000000000000.

Definition to_server : string := "llm→mcp_client".
Definition from_server : string := "mcp_client→server".

Definition call_payload (id : Z) : dict :=
  [("jsonrpc", JStr "2.0"); ("id", JInt id); ("method", JStr "tools/call");
   ("params", JDict [("name", JStr "get_weather");
                     ("arguments", JDict [("city", JStr "London")])])]%string.

Definition result_payload (id : Z) : dict :=
  [("jsonrpc", JStr "2.0"); ("id", JInt id);
   ("result", JDict [("temp", JInt 15)])]%string.



(** S1: one tool call, answered 120 ms later. *)
Definition s1 : list event :=
  [message t0 "weather" to_server (call_payload 1);
   message (t0 + 120000) "weather" from_server (result_payload 1)].

(** The flows of S1 at the default window ([[]] would stand for an
    exception, which this run does not raise). *)
Definition s1_flows : list Flow.t :=
  match group_into_flows py_str default_time_window_seconds s1 with
  | Some flows => flows
  | None => []
  end.

(** S3: a call and its answer, then a call one minute later. *)
Definition s3 : list event :=
  [message t0 "weather" to_server (call_payload 1);
   message (t0 + 50000) "weather" from_server (result_payload 1);
   message (t0 + 60000000) "weather" to_server (call_payload 2)].


(** *** The proxy at work *)

Definition quote : string := String (ascii_of_nat 34) EmptyString.

Definition newline : string := String (ascii_of_nat 10) EmptyString.

(** A compact rendering of a JSON value, enough to write the lines of
    the runs. *)
Fixpoint dumps (v : json) : string :=
  match v with
  | JNull => "null"
  | JBool b => if b then "true" else "false"
  | JInt n => decimal n
  | JStr s => quote ++ s ++ quote
  | JList l => "[" ++ Py.join ", " (map dumps l) ++ "]"
  | JDict d =>
      "{" ++
      Py.join ", "
        ((fix members (d : list (string * json)) : list string :=
            match d with
            | [] => []
            | (k, x) :: r => (quote ++ k ++ quote ++ ": " ++ dumps x) :: members r
            end) d)
      ++ "}"
  end%string.

Definition request_line : string := (dumps (JDict (call_payload 1)) ++ newline)%string.

Definition response_line : string := (dumps (JDict (result_payload 1)) ++ newline)%string.

(** [json.loads] on the lines of the runs; any other text is refused. *)
Definition json_loads (s : string) : option json :=
  find (fun v => String.eqb (dumps v) s)
       [JDict (call_payload 1); JDict (result_payload 1)].

(** A formatter: logger name, level name and message (the time stamp is
    left out). *)
Definition format (r : Proxy.log_record) : string :=
  match r with
  | Proxy.Captured d method =>
      "mcp_audit.interceptors.mcp_proxy - INFO - Captured " ++
      Models.direction_value d ++ ": " ++ py_str method
  | Proxy.NonJsonMessage m =>
      "mcp_audit.interceptors.mcp_proxy - DEBUG - Non-JSON message: " ++ m ++ "..."
  | Proxy.ErrorCapturing =>
      "mcp_audit.interceptors.mcp_proxy - ERROR - Error capturing message"
  | Proxy.EnhancedAudit server d method =>
      "mcp_audit.interceptors.mcp_proxy_runner - INFO - Enhanced audit [" ++
      server ++ "]: " ++ Models.direction_value d ++ " - " ++ py_str method
  | Proxy.ErrorInCallback =>
      "mcp_audit.interceptors.mcp_proxy_runner - ERROR - Error in enhanced audit callback"
  end%string.

(** Nothing written yet. *)
Definition quiet : Proxy.world :=
  {| Proxy.server_stdin := EmptyString;
     Proxy.stdout := EmptyString;
     Proxy.messages_file := [] |}.

(** The callback of the runner for the server [weather] in process
    4242. *)
Definition callback (logging : Logging.config)
  : option (Models.MCPMessageTrace -> Proxy.world -> option Proxy.world) :=
  Some (Runner.enhanced_audit_message_callback format logging "weather" 4242).

(** S1 as the proxy lives it: the request of the host, then the answer
    of the server 120 ms later. *)
Definition s1_schedule : list Proxy.read :=
  [Proxy.HostLine request_line t0; Proxy.ServerLine response_line (t0 + 120000)].

(** *** Launch records *)


Definition one_server (s : Config.server) : Config.t :=
  {| Config.mcpServers := Some [("weather", s)]%string; Config.others := [] |}.



(** A machine on which the interpreter is [python]. *)
Definition python_host : Manager.host :=
  {| Manager.project_config := Manager.Missing;
     Manager.global_config := Manager.Missing;
     Manager.current_directory := "/home/dev/project";
     Manager.venv_python_exists := false;
     Manager.which_python3 := false;
     Manager.which_python := true |}.

(** A server started by the interpreter itself. *)
Definition script_server : Config.server :=
  {| Config.command := Some "python";
     Config.args := Some ["server.py"; "--verbose"];
     Config.cwd := None; Config.env := None; Config.extra := [] |}%string.


End Scenario.

(* ===================================================================== *)
(** * Properties *)
(* ===================================================================== *)

(** ** The cognitive scorer *)

Module CognitiveFacts.
Import Models Cognitive.

Ltac split_ifs :=
  repeat match goal with
         | |- context [if ?b then _ else _] => destruct b
         end.

Section Bounds.

Variable py_str : json -> string.

Lemma prompt_complexity_bounds (i : MCPInteraction) :
  20 <= _calculate_prompt_complexity i <= 100.
Proof.
  unfold _calculate_prompt_complexity, Py.count_in.
  cbv zeta.
  destruct (is_inferred_prompt (Py.lower (user_query i))); [lia|].
  match goal with
  | |- context [if ?n >? 2 then _ + (?n - 1) * 12 else _] =>
      destruct (n >? 2) eqn:E; [apply Z.gtb_lt in E|]
  end; split_ifs; lia.
Qed.

Lemma direction_changes_nonneg (ms : list MCPMessageTrace) :
  forall last, 0 <= direction_changes last ms.
Proof.
  induction ms as [|m r IH]; intros last; simpl.
  - lia.
  - specialize (IH (Some (direction m))).
    destruct last as [d|]; [destruct (direction_eqb (direction m) d)|]; lia.
Qed.

Lemma tool_changes_nonneg (ms : list MCPMessageTrace) :
  forall last, 0 <= tool_changes last ms.
Proof.
  induction ms as [|m r IH]; intros last; simpl.
  - lia.
  - match goal with
    | |- context [tool_changes ?l r] => specialize (IH l)
    end.
    split_ifs; lia.
Qed.

Lemma context_switching_bounds (i : MCPInteraction) :
  5 <= _calculate_context_switching i <= 100.
Proof.
  unfold _calculate_context_switching. cbv zeta.
  pose proof (direction_changes_nonneg (message_traces i) None).
  pose proof (tool_changes_nonneg (message_traces i) JNull).
  destruct (List.length (message_traces i) <? 2)%nat eqn:L; [lia|].
  apply Nat.ltb_ge in L.
  destruct ((0 + direction_changes None (message_traces i) * 10 +
             tool_changes JNull (message_traces i) * 15 =? 0) &&
            (1 <? List.length (message_traces i))%nat) eqn:E.
  - lia.
  - apply andb_false_iff in E. destruct E as [E|E].
    + apply Z.eqb_neq in E. lia.
    + (* the interaction has at least two messages on this branch *)
      apply Nat.ltb_ge in E. lia.
Qed.

Lemma retry_frustration_bounds (i : MCPInteraction) :
  10 <= fst (_calculate_retry_frustration i) <= 100.
Proof.
  unfold _calculate_retry_frustration. cbv zeta. cbn [fst].
  destruct (negb (retry_count i =? 0) && (retry_count i >? 0)) eqn:E.
  - apply andb_true_iff in E. destruct E as [_ E].
    apply Z.gtb_lt in E. split_ifs; try lia.
    all: destruct (total_latency_ms i); split_ifs; lia.
  - split_ifs; try lia.
    all: destruct (total_latency_ms i); split_ifs; lia.
Qed.

Lemma configuration_friction_bounds (i : MCPInteraction) :
  10 <= fst (_calculate_configuration_friction py_str i) <= 100.
Proof.
  unfold _calculate_configuration_friction. cbv zeta. cbn [fst].
  destruct (total_latency_ms i); split_ifs; lia.
Qed.

Lemma integration_cognition_bounds (i : MCPInteraction) :
  20 <= _calculate_integration_cognition i <= 100.
Proof.
  unfold _calculate_integration_cognition. cbv zeta.
  split_ifs; lia.
Qed.

(** The weighted sum of five scores in [0, 100] stays in [0, 100]:
    the [min] of [_calculate_overall_cognitive_load] changes
    nothing. *)
Lemma weighted_sum_bounds (p c r f g : Z) :
  0 <= p <= 100 -> 0 <= c <= 100 -> 0 <= r <= 100 -> 0 <= f <= 100 ->
  0 <= g <= 100 ->
  (0 <= inject_Z p * Weights.prompt_complexity +
        inject_Z c * Weights.context_switching +
        inject_Z r * Weights.retry_frustration +
        inject_Z f * Weights.configuration_friction +
        inject_Z g * Weights.integration_cognition <= 100)%Q.
Proof.
  intros. unfold Weights.prompt_complexity, Weights.context_switching,
    Weights.retry_frustration, Weights.configuration_friction,
    Weights.integration_cognition.
  unfold Qle, Qplus, Qmult, inject_Z. simpl. lia.
Qed.

Lemma overall_of_bounded (p c r f g : Z) :
  0 <= p <= 100 -> 0 <= c <= 100 -> 0 <= r <= 100 -> 0 <= f <= 100 ->
  0 <= g <= 100 ->
  (_calculate_overall_cognitive_load
     (inject_Z p) (inject_Z c) (inject_Z r) (inject_Z f) (inject_Z g)
   == inject_Z p * Weights.prompt_complexity +
      inject_Z c * Weights.context_switching +
      inject_Z r * Weights.retry_frustration +
      inject_Z f * Weights.configuration_friction +
      inject_Z g * Weights.integration_cognition)%Q.
Proof.
  intros. unfold _calculate_overall_cognitive_load. cbv zeta.
  apply Q.min_l. apply weighted_sum_bounds; assumption.
Qed.

(** The metrics computed for an interaction, before validation. *)
Definition computed (i : MCPInteraction) : CognitiveLoadMetrics :=
  let p := _calculate_prompt_complexity i in
  let c := _calculate_context_switching i in
  let r := _calculate_retry_frustration i in
  let f := _calculate_configuration_friction py_str i in
  let g := _calculate_integration_cognition i in
  {| overall_score :=
       _calculate_overall_cognitive_load
         (inject_Z p) (inject_Z c) (inject_Z (fst r)) (inject_Z (fst f)) (inject_Z g);
     prompt_complexity := p;
     context_switching := c;
     retry_frustration := fst r;
     configuration_friction := fst f;
     integration_cognition := g;
     retry_breakdown := Some (snd r);
     configuration_breakdown := Some (snd f) |}.

Lemma score_ok_iff (x : Z) : score_ok x = true <-> 0 <= x <= 100.
Proof. unfold score_ok. rewrite andb_true_iff, !Z.leb_le. tauto. Qed.

Lemma computed_validates (i : MCPInteraction) : validates (computed i) = true.
Proof.
  pose proof (prompt_complexity_bounds i).
  pose proof (context_switching_bounds i).
  pose proof (retry_frustration_bounds i).
  pose proof (configuration_friction_bounds i).
  pose proof (integration_cognition_bounds i).
  unfold validates, computed. cbv zeta.
  cbn [overall_score prompt_complexity context_switching retry_frustration
       configuration_friction integration_cognition].
  rewrite !andb_true_iff, !score_ok_iff, !Qle_bool_iff.
  assert (W := @weighted_sum_bounds
                (_calculate_prompt_complexity i)
                (_calculate_context_switching i)
                (fst (_calculate_retry_frustration i))
                (fst (_calculate_configuration_friction py_str i))
                (_calculate_integration_cognition i)
                ltac:(lia) ltac:(lia) ltac:(lia) ltac:(lia) ltac:(lia)).
  assert (O := @overall_of_bounded
                (_calculate_prompt_complexity i)
                (_calculate_context_switching i)
                (fst (_calculate_retry_frustration i))
                (fst (_calculate_configuration_friction py_str i))
                (_calculate_integration_cognition i)
                ltac:(lia) ltac:(lia) ltac:(lia) ltac:(lia) ltac:(lia)).
  repeat split; try lia.
  - eapply Qle_trans; [apply W|]. rewrite O. apply Qle_refl.
  - rewrite O. apply W.
Qed.

(** Validation never sends [analyze_interaction] to its [except]
    branch. *)
Lemma analyze_interaction_computed (i : MCPInteraction) :
  analyze_interaction py_str i = computed i.
Proof.
  pose proof (computed_validates i) as V.
  unfold analyze_interaction, computed in *. cbv zeta in *.
  destruct (_calculate_retry_frustration i) as [r rb].
  destruct (_calculate_configuration_friction py_str i) as [f fb].
  cbn [fst snd] in *. rewrite V. reflexivity.
Qed.

(** Every score of an analyzed interaction lies in [0, 100]. *)
Lemma analyze_interaction_bounds (i : MCPInteraction) :
  let m := analyze_interaction py_str i in
  0 <= prompt_complexity m <= 100 /\
  0 <= context_switching m <= 100 /\
  0 <= retry_frustration m <= 100 /\
  0 <= configuration_friction m <= 100 /\
  0 <= integration_cognition m <= 100 /\
  (0 <= overall_score m <= 100)%Q.
Proof.
  cbv zeta. rewrite analyze_interaction_computed.
  pose proof (computed_validates i) as V.
  unfold validates in V.
  rewrite !andb_true_iff, !score_ok_iff, !Qle_bool_iff in V.
  tauto.
Qed.

End Bounds.


(** The interaction that carries a given user query and nothing else. *)
Definition asking (query : string) : MCPInteraction :=
  {| session_id := "session"; server_name := "server"; user_query := query;
     start_time := 0; end_time := None; message_traces := [];
     success := true; total_latency_ms := None; retry_count := 0;
     user_context := None |}.

(** C9, as the claim states it, fails: with three action verbs the code
    adds 12 * (3 - 1) = 24 where the claim has 12 * (3 - 2) = 12. *)
Lemma three_action_verbs_score_49 :
  _calculate_prompt_complexity (asking "create update delete") = 49 /\
  Spec.prompt_complexity "create update delete" = 37.
Proof. split; reflexivity. Qed.

(** C9, amended.  An inferred or placeholder prompt scores 20; any
    other prompt scores min(100, 20 + word-count bonus + 8 per
    technical term + 10 per logic term + 12 * (action verbs - 1) when
    more than 2 action verbs are present + 15 for a temporal word + 10
    for a number or a quantifier). *)
Theorem prompt_complexity_formula (i : MCPInteraction) :
  let query := Py.lower (user_query i) in
  _calculate_prompt_complexity i =
  if is_inferred_prompt query then 20
  else
    Z.min 100
      (20
       + Spec.word_count_bonus (Z.of_nat (List.length (Py.split query)))
       + 8 * Py.count_in technical_indicators query
       + 10 * Py.count_in complexity_indicators query
       + (if Py.count_in action_verbs query >? 2
          then 12 * (Py.count_in action_verbs query - 1) else 0)
       + (if Py.any_in time_words query then 15 else 0)
       + (if Py.has_digit query || Py.any_in quantifier_words query
          then 10 else 0)).
Proof.
  cbv zeta. unfold _calculate_prompt_complexity, Spec.word_count_bonus.
  cbv zeta.
  destruct (is_inferred_prompt (Py.lower (user_query i))); [reflexivity|].
  split_ifs; lia.
Qed.

End CognitiveFacts.

(** ** The timeline correlator *)

Module TimelineFacts.
Import Timeline.

(** Every two neighbours of a list are related by [R]. *)
Definition consecutive {A : Type} (R : A -> A -> Prop) (l : list A) : Prop :=
  forall l1 a b l2, l = (l1 ++ a :: b :: l2)%list -> R a b.

Section Consecutive.

Context {A : Type} (R : A -> A -> Prop).

Lemma consecutive_nil : consecutive R [].
Proof. intros l1 a b l2 H. destruct l1; discriminate. Qed.

Lemma consecutive_one (x : A) : consecutive R [x].
Proof.
  intros l1 a b l2 H. destruct l1 as [|y [|z l1]]; discriminate.
Qed.

Lemma consecutive_snoc (l : list A) (x : A) :
  consecutive R l ->
  (forall l1 a, l = (l1 ++ [a])%list -> R a x) ->
  consecutive R (l ++ [x]).
Proof.
  intros Hl Hx l1 a b l2 E.
  destruct l2 as [|c l2'] using rev_ind.
  - change (l1 ++ [a; b])%list with (l1 ++ [a] ++ [b])%list in E.
    rewrite app_assoc in E.
    apply app_inj_tail in E. destruct E as [El ->].
    eapply Hx. exact El.
  - clear IHl2'.
    change (l1 ++ a :: b :: l2' ++ [c])%list
      with (l1 ++ (a :: b :: l2') ++ [c])%list in E.
    rewrite app_assoc in E.
    apply app_inj_tail in E. destruct E as [El _].
    eapply Hl. exact El.
Qed.

Lemma consecutive_app_r (l1 l2 : list A) :
  consecutive R (l1 ++ l2) -> consecutive R l2.
Proof.
  intros H k a b k' E. apply (H (l1 ++ k)%list a b k').
  rewrite E, app_assoc. reflexivity.
Qed.

Lemma consecutive_app_l (l1 l2 : list A) :
  consecutive R (l1 ++ l2) -> consecutive R l1.
Proof.
  intros H k a b k' E. apply (H k a b (k' ++ l2)%list).
  rewrite E, <- app_assoc. reflexivity.
Qed.

End Consecutive.

Lemma consecutive_map {A B : Type} (f : A -> B) (R : B -> B -> Prop) (l : list A) :
  consecutive (fun x y => R (f x) (f y)) l -> consecutive R (map f l).
Proof.
  intros H l1 a b l2 E.
  apply map_eq_app in E. destruct E as (k1 & k2 & -> & <- & E).
  apply map_eq_cons in E. destruct E as (x & k3 & -> & <- & E).
  apply map_eq_cons in E. destruct E as (y & k4 & -> & <- & _).
  eapply H. reflexivity.
Qed.

Lemma last_cons {A : Type} (rest : list A) :
  forall first d : A, List.last (first :: rest) d = List.last rest first.
Proof.
  induction rest as [|x r IH]; intros first d.
  - reflexivity.
  - change (List.last (first :: x :: r) d) with (List.last (x :: r) d).
    rewrite IH. symmetry. apply (IH x first).
Qed.

(** The time stamps a flow shows in its [timeline]. *)
Definition stamps (f : Flow.t) : list Z :=
  map Entry.timestamp (Flow.timeline f).

(** Two neighbours of a flow: in order, and no more than the window
    apart (time stamps in microseconds, the window in seconds). *)
Definition close (W : Z) (t1 t2 : Z) : Prop :=
  t1 <= t2 /\ t2 - t1 <= W * 1000000.

(** Two neighbouring flows: more than the window apart. *)
Definition far (W : Z) (f1 f2 : Flow.t) : Prop :=
  W * 1000000 < Flow.start_time f2 - Flow.end_time f1.

(** Seconds from one time stamp to another, as [total_seconds] gives
    them in [_time_gap_seconds]. *)
Definition seconds_between (t1 t2 : Z) : Q := (t2 - t1) # 1000000.

Lemma time_gap_is_seconds_between (a b : event) :
  _time_gap_seconds a b = seconds_between (parsed_timestamp a) (parsed_timestamp b).
Proof. reflexivity. Qed.

Lemma seconds_le (W t1 t2 : Z) :
  t2 - t1 <= W * 1000000 -> (seconds_between t1 t2 <= inject_Z W)%Q.
Proof.
  unfold seconds_between, Qle, inject_Z. cbn [Qnum Qden]. lia.
Qed.

Lemma seconds_gt (W t1 t2 : Z) :
  W * 1000000 < t2 - t1 -> (inject_Z W < seconds_between t1 t2)%Q.
Proof.
  unfold seconds_between, Qlt, inject_Z. cbn [Qnum Qden]. lia.
Qed.

Lemma Sorted_consecutive {A : Type} (R : A -> A -> Prop) (l : list A) :
  Sorted R l -> consecutive R l.
Proof.
  induction 1 as [|x l HS IH HR]; intros l1 a b l2 E.
  - destruct l1; discriminate.
  - destruct l1 as [|y l1]; simpl in E; injection E as E1 E2.
    + subst. inversion HR. assumption.
    + eapply IH. exact E2.
Qed.

Lemma gap_test (W : Z) (a b : event) :
  Qle_bool (_time_gap_seconds a b) (inject_Z W) = true <->
  parsed_timestamp b - parsed_timestamp a <= W * 1000000.
Proof.
  rewrite Qle_bool_iff. unfold _time_gap_seconds, Qle, inject_Z.
  cbn [Qnum Qden]. lia.
Qed.

Section Grouping.

Variable py_str : json -> string.

Lemma mapM_entry_stamps (es : list event) :
  forall entries,
    mapM (entry_of py_str) es = Some entries ->
    map Entry.timestamp entries = map parsed_timestamp es.
Proof.
  induction es as [|e r IH]; intros entries H; simpl in H.
  - injection H as <-. reflexivity.
  - unfold bind in H.
    destruct (entry_of py_str e) as [y|] eqn:Ey; [|discriminate].
    destruct (mapM (entry_of py_str) r) as [ys|]; [|discriminate].
    injection H as <-. simpl. rewrite (IH ys eq_refl). f_equal.
    unfold entry_of, bind in Ey.
    destruct (_extract_event_content py_str e); [|discriminate].
    injection Ey as <-. reflexivity.
Qed.

(** What a summary keeps of its events. *)
Lemma summary_fields (first : event) (rest : list event) (f : Flow.t) :
  _create_flow_summary py_str first rest = Some f ->
  stamps f = map parsed_timestamp (first :: rest) /\
  Flow.start_time f = parsed_timestamp first /\
  Flow.end_time f = parsed_timestamp (List.last rest first) /\
  Flow.success f = _determine_flow_success (first :: rest) /\
  Flow.event_count f = List.length (first :: rest).
Proof.
  unfold _create_flow_summary. cbv zeta.
  destruct (fold_left update_prompt (first :: rest) (JNull, None, None))
    as [[p t] r].
  unfold bind.
  destruct (calls_of (first :: rest)) as [calls|]; [|discriminate].
  destruct (mapM (entry_of py_str) (first :: rest)) as [entries|] eqn:E; [|discriminate].
  intros H. injection H as <-. unfold stamps. cbn [Flow.timeline Flow.start_time
    Flow.end_time Flow.success Flow.event_count].
  rewrite (mapM_entry_stamps _ E). repeat split; reflexivity.
Qed.

Lemma last_map {A B : Type} (g : A -> B) (l : list A) :
  forall d, List.last (map g l) (g d) = g (List.last l d).
Proof.
  induction l as [|x r IH]; intros d; [reflexivity|].
  destruct r as [|y r']; [reflexivity|].
  change (List.last (map g (x :: y :: r')) (g d))
    with (List.last (map g (y :: r')) (g d)).
  rewrite IH. reflexivity.
Qed.

Definition le_ev (a b : event) : Prop :=
  parsed_timestamp a <= parsed_timestamp b.

Definition close_ev (W : Z) (a b : event) : Prop :=
  close W (parsed_timestamp a) (parsed_timestamp b).

(** A flow as the claim sees it: its time stamps are pairwise close,
    it starts at the first and ends at the last of them. *)
Definition flow_ok (W : Z) (f : Flow.t) : Prop :=
  consecutive (close W) (stamps f) /\
  exists t ts, stamps f = t :: ts /\
               Flow.start_time f = t /\
               Flow.end_time f = List.last ts t.

Ltac conj := match goal with |- _ /\ _ => split end.

(** The invariant of the loop of [group_into_flows]. *)
Definition loop_inv (W : Z) (flows : list Flow.t) (cur : list event) : Prop :=
  consecutive (close_ev W) cur /\
  Forall (flow_ok W) flows /\
  consecutive (far W) flows /\
  (forall k f a l1, flows = (k ++ [f])%list -> cur = a :: l1 ->
                    W * 1000000 < parsed_timestamp a - Flow.end_time f) /\
  (cur = [] -> flows = []).

Lemma flush (W : Z) (flows : list Flow.t) (cur : list event) (fs : list Flow.t) :
  summarize py_str cur = Some fs ->
  loop_inv W flows cur ->
  Forall (flow_ok W) (flows ++ fs) /\
  consecutive (far W) (flows ++ fs) /\
  List.concat (map stamps (flows ++ fs)) =
    (List.concat (map stamps flows) ++ map parsed_timestamp cur)%list /\
  (forall k f first rest, (flows ++ fs)%list = (k ++ [f])%list ->
                          cur = first :: rest ->
                          Flow.end_time f = parsed_timestamp (List.last rest first)).
Proof.
  intros S (Hcur & Hall & Hfar & Hbound & Hempty).
  destruct cur as [|first rest]; simpl in S.
  - injection S as <-. rewrite app_nil_r.
    repeat conj; try assumption.
    + rewrite app_nil_r. reflexivity.
    + intros; discriminate.
  - unfold bind in S.
    destruct (_create_flow_summary py_str first rest) as [f|] eqn:E; [|discriminate].
    injection S as <-.
    destruct (summary_fields _ _ E) as (Hst & Hstart & Hend & _ & _).
    repeat conj.
    + apply Forall_app. split; [assumption|]. constructor; [|constructor].
      split.
      * rewrite Hst. apply consecutive_map. exact Hcur.
      * exists (parsed_timestamp first), (map parsed_timestamp rest).
        split; [exact Hst|]. split; [exact Hstart|].
        rewrite Hend. symmetry. apply last_map.
    + apply consecutive_snoc; [assumption|].
      intros l1 a El. unfold far. rewrite Hstart.
      eapply Hbound; [exact El|reflexivity].
    + rewrite map_app, concat_app. simpl. rewrite app_nil_r, Hst. reflexivity.
    + intros k f' first' rest' Ek Ec.
      apply app_inj_tail in Ek. destruct Ek as [_ <-].
      injection Ec as <- <-. exact Hend.
Qed.

Lemma group_loop_spec (W : Z) (evs : list event) :
  forall flows cur out,
    group_loop py_str W evs flows cur = Some out ->
    consecutive le_ev (cur ++ evs) ->
    loop_inv W flows cur ->
    Forall (flow_ok W) out /\
    consecutive (far W) out /\
    List.concat (map stamps out) =
      (List.concat (map stamps flows) ++ map parsed_timestamp cur
         ++ map parsed_timestamp evs)%list.
Proof.
  induction evs as [|event more IH]; intros flows cur out G Hsorted Hinv.
  - simpl in G. unfold bind in G.
    destruct (summarize py_str cur) as [fs|] eqn:S; [|discriminate].
    injection G as <-.
    destruct (flush S Hinv) as (Hall & Hfar & Hcat & _).
    repeat conj; try assumption.
    rewrite Hcat. simpl. rewrite app_nil_r. reflexivity.
  - simpl in G.
    destruct cur as [|first rest].
    + (* the first event opens the first flow *)
      unfold bind in G. simpl in G.
      destruct Hinv as (_ & _ & _ & _ & Hempty).
      rewrite (Hempty eq_refl) in *. simpl in G.
      apply IH in G.
      * destruct G as (Hall & Hfar & Hcat). repeat conj; assumption.
      * exact Hsorted.
      * unfold loop_inv. repeat conj.
        -- apply consecutive_one.
        -- constructor.
        -- apply consecutive_nil.
        -- intros k f a l1 Ek. destruct k; discriminate.
        -- discriminate.
    + destruct (Qle_bool (_time_gap_seconds (List.last rest first) event)
                         (inject_Z W)) eqn:Egap; cbn [negb] in G.
      * (* the event joins the current flow *)
        apply gap_test in Egap.
        apply IH in G.
        -- destruct G as (Hall & Hfar & Hcat). repeat conj; try assumption.
           rewrite Hcat, map_app, <- !app_assoc. reflexivity.
        -- rewrite <- app_assoc. exact Hsorted.
        -- destruct Hinv as (Hcur & Hall & Hfar & Hbound & Hempty).
           unfold loop_inv. repeat conj; try assumption.
           ++ apply consecutive_snoc; [assumption|].
              intros l1 a El.
              assert (a = List.last rest first) as ->.
              { rewrite <- (last_cons rest first first), El.
                symmetry. apply last_last. }
              split; [|exact Egap].
              apply (Hsorted l1 (List.last rest first) event more).
              rewrite El, <- app_assoc. reflexivity.
           ++ intros k f a l1 Ek Ec. simpl in Ec. injection Ec as <- _.
              eapply Hbound; [exact Ek|reflexivity].
           ++ discriminate.
      * (* the gap is too large: the current flow is closed *)
        assert (Hgap : W * 1000000 <
                       parsed_timestamp event - parsed_timestamp (List.last rest first)).
        { destruct (Z_lt_le_dec (W * 1000000)
                      (parsed_timestamp event - parsed_timestamp (List.last rest first)))
            as [L|L]; [exact L|].
          apply gap_test in L. congruence. }
        unfold bind in G.
        destruct (summarize py_str (first :: rest)) as [fs|] eqn:S; [|discriminate].
        destruct (flush S Hinv) as (Hall & Hfar & Hcat & Hend).
        apply IH in G.
        -- destruct G as (Hall' & Hfar' & Hcat'). repeat conj; try assumption.
           rewrite Hcat', Hcat, <- !app_assoc. reflexivity.
        -- apply (consecutive_app_r (first :: rest)). exact Hsorted.
        -- unfold loop_inv. repeat conj; try assumption.
           ++ apply consecutive_one.
           ++ intros k f a l1 Ek Ec. injection Ec as <- _.
              rewrite (Hend k f first rest Ek eq_refl). exact Hgap.
           ++ discriminate.
Qed.





(** An event that [_create_flow_summary] can digest: its content can
    be extracted and its [params], when present, is a dictionary. *)
Definition well_formed (e : event) : Prop :=
  (exists entry, entry_of py_str e = Some entry) /\
  (exists params, params_of (payload_of e) = Some params).

Lemma mapM_entry_total (es : list event) :
  Forall well_formed es -> exists entries, mapM (entry_of py_str) es = Some entries.
Proof.
  induction 1 as [|e r [[entry He] _] _ [entries IH]]; simpl.
  - exists []. reflexivity.
  - rewrite He. unfold bind at 1. rewrite IH. unfold bind.
    exists (entry :: entries). reflexivity.
Qed.

Lemma calls_of_total (es : list event) :
  Forall well_formed es -> exists calls, calls_of es = Some calls.
Proof.
  induction 1 as [|e r [_ [params Hp]] _ [calls IH]]; simpl.
  - exists []. reflexivity.
  - destruct (is_mcp_tool_call e).
    + unfold call_of. rewrite Hp. unfold bind at 1 2. rewrite IH. unfold bind.
      eexists. reflexivity.
    + exists calls. exact IH.
Qed.

Lemma summarize_total (cur : list event) :
  Forall well_formed cur -> exists fs, summarize py_str cur = Some fs.
Proof.
  intros H. destruct cur as [|first rest]; simpl.
  - exists []. reflexivity.
  - unfold _create_flow_summary. cbv zeta.
    destruct (fold_left update_prompt (first :: rest) (JNull, None, None))
      as [[p t] r].
    destruct (calls_of_total H) as [calls ->].
    destruct (mapM_entry_total H) as [entries ->].
    unfold bind. eexists. reflexivity.
Qed.

Lemma group_loop_total (W : Z) (evs : list event) :
  forall flows cur,
    Forall well_formed cur -> Forall well_formed evs ->
    exists out, group_loop py_str W evs flows cur = Some out.
Proof.
  induction evs as [|event more IH]; intros flows cur Hcur Hevs.
  - simpl. destruct (summarize_total Hcur) as [fs ->].
    unfold bind. eexists. reflexivity.
  - inversion Hevs as [|? ? He Hmore]; subst. simpl.
    destruct (match cur with
              | [] => true
              | first :: rest =>
                  negb (Qle_bool (_time_gap_seconds (List.last rest first) event)
                                 (inject_Z W))
              end).
    + destruct (summarize_total Hcur) as [fs ->]. unfold bind.
      apply IH; [constructor; [exact He|constructor]|exact Hmore].
    + apply IH; [|exact Hmore].
      apply Forall_app. split; [exact Hcur|constructor; [exact He|constructor]].
Qed.


Definition has_tool_call (flow_events : list event) : Prop :=
  exists e, In e flow_events /\
            direction e = Some "llm→mcp_client"%string /\
            get "method" (payload_of e) = JStr "tools/call".

Definition has_response (flow_events : list event) : Prop :=
  exists e, In e flow_events /\
            Py.contains "server" (direction_of e) = true /\
            get "result" (payload_of e) <> JNull.





(** C2. When [group_into_flows] groups events that are sorted by
    time stamp, two neighbours in the timeline of a flow are at most
    [time_window_seconds] apart, and the end of a flow and the start
    of the next one are strictly more than [time_window_seconds]
    apart; a flow starts at its first entry and ends at its last one,
    and the flows together hold the time stamps of the events, in
    order.  The window is a parameter: the default of the class is
    [default_time_window_seconds]. *)
Theorem flow_boundaries (time_window_seconds : Z) (events : list event)
        (flows : list Flow.t) :
  Sorted le_ev events ->
  group_into_flows py_str time_window_seconds events = Some flows ->
  (forall f l1 e1 e2 l2,
      In f flows ->
      Flow.timeline f = (l1 ++ e1 :: e2 :: l2)%list ->
      Entry.timestamp e1 <= Entry.timestamp e2 /\
      (seconds_between (Entry.timestamp e1) (Entry.timestamp e2)
       <= inject_Z time_window_seconds)%Q) /\
  (forall k1 f1 f2 k2,
      flows = (k1 ++ f1 :: f2 :: k2)%list ->
      (inject_Z time_window_seconds
       < seconds_between (Flow.end_time f1) (Flow.start_time f2))%Q) /\
  (forall f,
      In f flows ->
      exists e es,
        Flow.timeline f = e :: es /\
        Flow.start_time f = Entry.timestamp e /\
        Flow.end_time f = Entry.timestamp (List.last es e)) /\
  List.concat (map stamps flows) = map parsed_timestamp events.
Proof.
  intros Hsorted G.
  assert (S : Forall (flow_ok time_window_seconds) flows /\
              consecutive (far time_window_seconds) flows /\
              List.concat (map stamps flows) = map parsed_timestamp events).
  { destruct events as [|e r].
    - injection G as <-. repeat conj.
      + constructor.
      + apply consecutive_nil.
      + reflexivity.
    - unfold group_into_flows in G.
      apply group_loop_spec in G.
      + exact G.
      + apply Sorted_consecutive. exact Hsorted.
      + unfold loop_inv. repeat conj.
        * apply consecutive_nil.
        * constructor.
        * apply consecutive_nil.
        * intros k f a l1 Ek. destruct k; discriminate.
        * reflexivity. }
  destruct S as (Hall & Hfar & Hcat).
  rewrite Forall_forall in Hall.
  repeat conj.
  - intros f l1 e1 e2 l2 Hin Et.
    destruct (Hall f Hin) as (Hclose & _).
    assert (C : close time_window_seconds (Entry.timestamp e1) (Entry.timestamp e2)).
    { apply (Hclose (map Entry.timestamp l1) _ _ (map Entry.timestamp l2)).
      unfold stamps. rewrite Et, map_app. reflexivity. }
    destruct C as (C1 & C2). split; [exact C1|].
    apply seconds_le. exact C2.
  - intros k1 f1 f2 k2 E. apply seconds_gt. exact (Hfar k1 f1 f2 k2 E).
  - intros f Hin.
    destruct (Hall f Hin) as (_ & t & ts & Est & Hstart & Hend).
    unfold stamps in Est.
    destruct (Flow.timeline f) as [|e es]; [discriminate|].
    simpl in Est. injection Est as <- <-.
    exists e, es. split; [reflexivity|]. split; [exact Hstart|].
    rewrite Hend. apply last_map.
  - exact Hcat.
Qed.


(** [group_into_flows] raises nothing on well-formed events: it
    returns flows. *)
Theorem group_into_flows_returns (time_window_seconds : Z) (events : list event) :
  Forall well_formed events ->
  exists flows, group_into_flows py_str time_window_seconds events = Some flows.
Proof.
  intros H. destruct events as [|e r].
  - exists []. reflexivity.
  - unfold group_into_flows. apply group_loop_total; [constructor|exact H].
Qed.

End Grouping.

Lemma group_into_flows_returns_witness :
  Forall (well_formed Scenario.py_str) Scenario.s3 /\
  exists flows,
    group_into_flows Scenario.py_str default_time_window_seconds Scenario.s3
    = Some flows.
Proof.
  assert (H : Forall (well_formed Scenario.py_str) Scenario.s3).
  { repeat constructor; eexists; vm_compute; reflexivity. }
  split; [exact H|].
  exact (@group_into_flows_returns Scenario.py_str default_time_window_seconds
           Scenario.s3 H).
Defined.

(** The run S3 at the default window: two flows, of two events and of
    one. *)
Lemma flow_boundaries_witness :
  exists flows,
    group_into_flows Scenario.py_str default_time_window_seconds Scenario.s3
      = Some flows /\
    map Flow.event_count flows = [2; 1]%nat /\
    (forall k1 f1 f2 k2,
        flows = (k1 ++ f1 :: f2 :: k2)%list ->
        (inject_Z default_time_window_seconds
         < seconds_between (Flow.end_time f1) (Flow.start_time f2))%Q).
Proof.
  eexists. split; [vm_compute; reflexivity|]. split; [reflexivity|].
  refine (proj1 (proj2
    (@flow_boundaries Scenario.py_str default_time_window_seconds Scenario.s3 _ _ _))).
  - repeat constructor; unfold le_ev; simpl; unfold Scenario.t0; lia.
  - vm_compute. reflexivity.
Defined.



End TimelineFacts.

(** ** From flows to scores *)

Module AnalysisFacts.
Import Models Timeline.

(** *** Interactions built from flows *)

Lemma trace_of_call_no_error (flow : Flow.t) (calls : list McpCall.t) :
  Forall (fun m => error_code m = None) (map (trace_of_call flow) calls).
Proof.
  induction calls as [|c r IH]; simpl; constructor; [reflexivity|exact IH].
Qed.

Lemma convert_flow_fields (flow : Flow.t) (i : MCPInteraction) :
  convert_flow flow = Some i ->
  retry_count i = 0 /\
  Forall (fun m => error_code m = None) (message_traces i).
Proof.
  unfold convert_flow. cbv zeta. unfold bind.
  destruct (user_query_of (Flow.user_prompt flow)) as [q|]; [|discriminate].
  intros H. injection H as <-. cbn [retry_count message_traces].
  split; [reflexivity|].
  pose proof (trace_of_call_no_error flow (Flow.mcp_calls flow)) as T.
  destruct (map (trace_of_call flow) (Flow.mcp_calls flow)) as [|m ms].
  - constructor; [reflexivity|constructor].
  - exact T.
Qed.

Lemma converted_from (flows : list Flow.t) (i : MCPInteraction) :
  In i (_convert_flows_to_interactions flows) ->
  exists flow, In flow flows /\ convert_flow flow = Some i.
Proof.
  induction flows as [|f r IH]; simpl; [tauto|].
  destruct (convert_flow f) as [j|] eqn:E; simpl; [|tauto].
  intros [<-|H].
  - exists f. split; [left; reflexivity|exact E].
  - destruct (IH H) as (g & Hg & Eg). exists g. split; [right; exact Hg|exact Eg].
Qed.

(** A filter that asks for an error code keeps nothing of traces that
    have none. *)
Lemma filter_no_error (p : MCPMessageTrace -> bool) (l : list MCPMessageTrace) :
  (forall m, error_code m = None -> p m = false) ->
  Forall (fun m => error_code m = None) l ->
  filter p l = [].
Proof.
  intros Hp H. induction H as [|m r Hm _ IH]; simpl; [reflexivity|].
  rewrite (Hp m Hm). exact IH.
Qed.

(** C10.  An interaction that [_convert_flows_to_interactions] builds
    from flows has [retry_count = 0] and no [error_code] on any of its
    message traces; so the scorer's retry penalty and error penalty
    (retry frustration) and its authentication, parameter and
    configuration-keyword penalties (configuration friction) are 0. *)
Theorem timeline_interactions_carry_no_errors
        (py_str : json -> string) (flows : list Flow.t) (interaction : MCPInteraction) :
  In interaction (_convert_flows_to_interactions flows) ->
  retry_count interaction = 0 /\
  Forall (fun m => error_code m = None) (message_traces interaction) /\
  RetryBreakdown.retry_penalty
    (snd (Cognitive._calculate_retry_frustration interaction)) = 0 /\
  RetryBreakdown.error_penalty
    (snd (Cognitive._calculate_retry_frustration interaction)) = 0 /\
  ConfigBreakdown.auth_penalty
    (snd (Cognitive._calculate_configuration_friction py_str interaction)) = 0 /\
  ConfigBreakdown.param_penalty
    (snd (Cognitive._calculate_configuration_friction py_str interaction)) = 0 /\
  ConfigBreakdown.config_keyword_penalty
    (snd (Cognitive._calculate_configuration_friction py_str interaction)) = 0.
Proof.
  intros Hin.
  destruct (converted_from _ _ Hin) as (flow & _ & E).
  destruct (convert_flow_fields _ E) as (Hretry & Hnone).
  split; [exact Hretry|]. split; [exact Hnone|].
  unfold Cognitive._calculate_retry_frustration,
    Cognitive._calculate_configuration_friction.
  cbv zeta. cbn [snd RetryBreakdown.retry_penalty RetryBreakdown.error_penalty
                 ConfigBreakdown.auth_penalty ConfigBreakdown.param_penalty
                 ConfigBreakdown.config_keyword_penalty].
  rewrite Hretry.
  rewrite (@filter_no_error Cognitive.is_actual_error), (@filter_no_error Cognitive.is_auth_error),
    (@filter_no_error Cognitive.is_param_error),
    (@filter_no_error (Cognitive.has_config_keyword py_str)); try exact Hnone.
  - repeat split; reflexivity.
  - intros m Hm. unfold Cognitive.has_config_keyword. rewrite Hm. reflexivity.
  - intros m Hm. unfold Cognitive.is_param_error, Cognitive.is_auth_error,
      Cognitive.error_code_in. rewrite Hm. reflexivity.
  - intros m Hm. unfold Cognitive.is_auth_error, Cognitive.error_code_in.
    rewrite Hm. reflexivity.
  - intros m Hm. unfold Cognitive.is_actual_error. rewrite Hm. reflexivity.
Qed.

(** The run S1: its one flow gives one interaction. *)
Lemma timeline_interactions_carry_no_errors_witness :
  exists interaction,
    _convert_flows_to_interactions Scenario.s1_flows = [interaction] /\
    retry_count interaction = 0 /\
    Forall (fun m => error_code m = None) (message_traces interaction) /\
    RetryBreakdown.retry_penalty
      (snd (Cognitive._calculate_retry_frustration interaction)) = 0 /\
    RetryBreakdown.error_penalty
      (snd (Cognitive._calculate_retry_frustration interaction)) = 0 /\
    ConfigBreakdown.auth_penalty
      (snd (Cognitive._calculate_configuration_friction Scenario.py_str interaction)) = 0 /\
    ConfigBreakdown.param_penalty
      (snd (Cognitive._calculate_configuration_friction Scenario.py_str interaction)) = 0 /\
    ConfigBreakdown.config_keyword_penalty
      (snd (Cognitive._calculate_configuration_friction Scenario.py_str interaction)) = 0.
Proof.
  eexists. split; [vm_compute; reflexivity|].
  apply (@timeline_interactions_carry_no_errors Scenario.py_str Scenario.s1_flows).
  vm_compute. left. reflexivity.
Defined.

(** *** Averages and the grade *)

Definition in_range (x : Q) : Prop := (0 <= x <= 100)%Q.

Lemma Qsum_from (l : list Q) :
  forall a,
    Forall in_range l ->
    (a <= fold_left Qplus l a <= a + 100 * inject_Z (Z.of_nat (List.length l)))%Q.
Proof.
  induction l as [|x r IH]; intros a H.
  - simpl. unfold inject_Z. lra.
  - inversion H as [|? ? [Hx0 Hx1] Hr]; subst.
    specialize (IH (a + x)%Q Hr).
    change (fold_left Qplus (x :: r) a) with (fold_left Qplus r (a + x)%Q).
    assert (E : (inject_Z (Z.of_nat (List.length (x :: r)))
                 == inject_Z (Z.of_nat (List.length r)) + 1)%Q).
    { cbn [List.length]. rewrite Nat2Z.inj_succ. unfold Z.succ.
      rewrite inject_Z_plus. reflexivity. }
    rewrite E. lra.
Qed.

Lemma mean_in_range (l : list Q) :
  l <> [] -> Forall in_range l ->
  in_range (Qsum l / inject_Z (Z.of_nat (List.length l))).
Proof.
  intros Hne H. pose proof (Qsum_from 0 H) as [S0 S1].
  assert (N : (0 < inject_Z (Z.of_nat (List.length l)))%Q).
  { destruct l; [congruence|]. unfold Qlt, inject_Z. cbn [Qnum Qden List.length]. lia. }
  unfold in_range, Qsum. split.
  - apply Qle_shift_div_l; [exact N|]. lra.
  - apply Qle_shift_div_r; [exact N|]. lra.
Qed.

Lemma round_half_even_range (y : Q) (n : Z) :
  0 <= n -> (0 <= y <= inject_Z n)%Q -> 0 <= round_half_even y <= n.
Proof.
  intros Hn [Y0 Y1]. unfold round_half_even. cbv zeta.
  pose proof (Qfloor_le y) as F0.
  assert (F1 : 0 <= Qfloor y).
  { change 0 with (Qfloor 0). apply Qfloor_resp_le. exact Y0. }
  assert (F2 : Qfloor y <= n).
  { rewrite <- (Qfloor_Z n). apply Qfloor_resp_le. exact Y1. }
  assert (Up : (1 # 2 <= y - inject_Z (Qfloor y))%Q -> Qfloor y + 1 <= n).
  { intros G.
    assert (L : (inject_Z (Qfloor y) < inject_Z n)%Q) by lra.
    rewrite <- Zlt_Qlt in L. lia. }
  destruct (Qcompare (y - inject_Z (Qfloor y)) (1 # 2)) eqn:C.
  - apply Qeq_alt in C.
    destruct (Z.even (Qfloor y)); [lia|].
    split; [lia|]. apply Up. rewrite C. apply Qle_refl.
  - lia.
  - apply Qgt_alt in C. split; [lia|]. apply Up. apply Qlt_le_weak. exact C.
Qed.

Lemma round1_in_range (x : Q) : in_range x -> in_range (round1 x).
Proof.
  intros [X0 X1]. unfold round1.
  assert (R : 0 <= round_half_even (x * 10) <= 1000).
  { apply round_half_even_range; [lia|].
    change (inject_Z 1000) with 1000%Q. lra. }
  unfold in_range, Qle. cbn [Qnum Qden]. lia.
Qed.

Lemma average_in_range (l : list Q) :
  l <> [] -> Forall in_range l -> in_range (average l).
Proof.
  intros Hne H. unfold average. apply round1_in_range.
  apply mean_in_range; assumption.
Qed.

Lemma or50_in_range (x : Q) : in_range x -> in_range (or50 x).
Proof.
  intros H. unfold or50. destruct (Qeq_bool x 0); [|exact H].
  unfold in_range. lra.
Qed.

Lemma or50z_in_range (x : Z) : 0 <= x <= 100 -> 0 <= or50z x <= 100.
Proof. intros H. unfold or50z. destruct (x =? 0); lia. Qed.

Lemma inject_in_range (x : Z) : 0 <= x <= 100 -> in_range (inject_Z x).
Proof.
  intros H. unfold in_range, Qle, inject_Z. cbn [Qnum Qden]. lia.
Qed.

(** The grade, threshold by threshold. *)
Lemma grade_of_thresholds (overall_score : Q) :
  (grade_of overall_score = A <-> (overall_score <= 20)%Q) /\
  (grade_of overall_score = B <-> (20 < overall_score <= 40)%Q) /\
  (grade_of overall_score = C <-> (40 < overall_score <= 60)%Q) /\
  (grade_of overall_score = D <-> (60 < overall_score <= 80)%Q) /\
  (grade_of overall_score = F <-> (80 < overall_score)%Q).
Proof.
  unfold grade_of.
  destruct (Qle_bool overall_score 20) eqn:E20;
    [apply Qle_bool_iff in E20
    |assert (20 < overall_score)%Q
       by (apply Qnot_le_lt; rewrite <- Qle_bool_iff; congruence);
     destruct (Qle_bool overall_score 40) eqn:E40;
     [apply Qle_bool_iff in E40
     |assert (40 < overall_score)%Q
        by (apply Qnot_le_lt; rewrite <- Qle_bool_iff; congruence);
      destruct (Qle_bool overall_score 60) eqn:E60;
      [apply Qle_bool_iff in E60
      |assert (60 < overall_score)%Q
         by (apply Qnot_le_lt; rewrite <- Qle_bool_iff; congruence);
       destruct (Qle_bool overall_score 80) eqn:E80;
       [apply Qle_bool_iff in E80
       |assert (80 < overall_score)%Q
          by (apply Qnot_le_lt; rewrite <- Qle_bool_iff; congruence)]]]];
    repeat split; intros; try discriminate; try lra.
Qed.

Section Analysis.

Variable py_str : json -> string.

(** The metrics the loop of [generate_cognitive_analysis] appends. *)
Definition load_of (i : MCPInteraction) : CognitiveLoadMetrics :=
  adjust (Cognitive.analyze_interaction py_str i).

Lemma load_of_bounds (i : MCPInteraction) :
  0 <= prompt_complexity (load_of i) <= 100 /\
  0 <= context_switching (load_of i) <= 100 /\
  0 <= retry_frustration (load_of i) <= 100 /\
  0 <= configuration_friction (load_of i) <= 100 /\
  0 <= integration_cognition (load_of i) <= 100 /\
  in_range (overall_score (load_of i)).
Proof.
  destruct (CognitiveFacts.analyze_interaction_bounds py_str i)
    as (P & C & R & F & G & O).
  unfold load_of, adjust.
  cbn [prompt_complexity context_switching retry_frustration
       configuration_friction integration_cognition overall_score].
  repeat split; try (apply or50z_in_range; assumption);
    apply or50_in_range; exact O.
Qed.

Lemma average_of_in_range (f : CognitiveLoadMetrics -> Z)
      (l : list MCPInteraction) :
  l <> [] ->
  (forall i, 0 <= f (load_of i) <= 100) ->
  in_range (average_of f (map load_of l)).
Proof.
  intros Hne Hf. unfold average_of. apply average_in_range.
  - destruct l; [congruence|discriminate].
  - rewrite map_map. apply Forall_map. apply Forall_forall.
    intros i _. apply inject_in_range. apply Hf.
Qed.

(** C5.  Every score of an analyzed interaction, the five sub-scores
    and the overall score, lies in [0, 100]; when flows give at least
    one interaction, the six averages that [generate_cognitive_analysis]
    reports lie in [0, 100] too, and the grade is decided by the
    reported overall score alone: A iff overall <= 20, B iff
    20 < overall <= 40, C iff 40 < overall <= 60, D iff
    60 < overall <= 80, F iff 80 < overall. *)
Theorem scores_bounded_and_graded (flows : list Flow.t) :
  _convert_flows_to_interactions flows <> [] ->
  let load := generate_cognitive_analysis py_str flows in
  (forall interaction,
      let m := Cognitive.analyze_interaction py_str interaction in
      0 <= prompt_complexity m <= 100 /\
      0 <= context_switching m <= 100 /\
      0 <= retry_frustration m <= 100 /\
      0 <= configuration_friction m <= 100 /\
      0 <= integration_cognition m <= 100 /\
      (0 <= overall_score m <= 100)%Q) /\
  (0 <= CognitiveLoad.prompt_complexity load <= 100)%Q /\
  (0 <= CognitiveLoad.context_switching load <= 100)%Q /\
  (0 <= CognitiveLoad.retry_frustration load <= 100)%Q /\
  (0 <= CognitiveLoad.configuration_friction load <= 100)%Q /\
  (0 <= CognitiveLoad.integration_cognition load <= 100)%Q /\
  (0 <= CognitiveLoad.overall_score load <= 100)%Q /\
  (CognitiveLoad.grade load = A <->
   (CognitiveLoad.overall_score load <= 20)%Q) /\
  (CognitiveLoad.grade load = B <->
   (20 < CognitiveLoad.overall_score load <= 40)%Q) /\
  (CognitiveLoad.grade load = C <->
   (40 < CognitiveLoad.overall_score load <= 60)%Q) /\
  (CognitiveLoad.grade load = D <->
   (60 < CognitiveLoad.overall_score load <= 80)%Q) /\
  (CognitiveLoad.grade load = F <->
   (80 < CognitiveLoad.overall_score load)%Q).
Proof.
  intros Hne. cbv zeta.
  split; [intros interaction; apply CognitiveFacts.analyze_interaction_bounds|].
  unfold generate_cognitive_analysis. cbv zeta.
  destruct (_convert_flows_to_interactions flows) as [|first rest] eqn:E;
    [congruence|].
  cbn [CognitiveLoad.prompt_complexity CognitiveLoad.context_switching
       CognitiveLoad.retry_frustration CognitiveLoad.configuration_friction
       CognitiveLoad.integration_cognition CognitiveLoad.overall_score
       CognitiveLoad.grade].
  fold (load_of).
  assert (Hl : first :: rest <> []) by discriminate.
  split; [apply (@average_of_in_range prompt_complexity _ Hl);
          intros i; apply (load_of_bounds i)|].
  split; [apply (@average_of_in_range context_switching _ Hl);
          intros i; apply (load_of_bounds i)|].
  split; [apply (@average_of_in_range retry_frustration _ Hl);
          intros i; apply (load_of_bounds i)|].
  split; [apply (@average_of_in_range configuration_friction _ Hl);
          intros i; apply (load_of_bounds i)|].
  split; [apply (@average_of_in_range integration_cognition _ Hl);
          intros i; apply (load_of_bounds i)|].
  split.
  - apply average_in_range; [discriminate|].
    rewrite map_map. apply Forall_map. apply Forall_forall.
    intros i _. apply (load_of_bounds i).
  - apply grade_of_thresholds.
Qed.

End Analysis.

(** The run S1: one interaction, overall score 15.5, grade A. *)
Lemma scores_bounded_and_graded_witness :
  _convert_flows_to_interactions Scenario.s1_flows <> [] /\
  let load := generate_cognitive_analysis Scenario.py_str Scenario.s1_flows in
  (CognitiveLoad.overall_score load == 15.5)%Q /\
  CognitiveLoad.grade load = A /\
  (0 <= CognitiveLoad.overall_score load <= 100)%Q /\
  (CognitiveLoad.grade load = A <->
   (CognitiveLoad.overall_score load <= 20)%Q).
Proof.
  assert (H : _convert_flows_to_interactions Scenario.s1_flows <> [])
    by (vm_compute; discriminate).
  split; [exact H|]. cbv zeta. split; [vm_compute; reflexivity|].
  split; [vm_compute; reflexivity|].
  pose proof (@scores_bounded_and_graded Scenario.py_str Scenario.s1_flows H) as S.
  cbv zeta in S.
  split; [exact (proj1 (proj2 (proj2 (proj2 (proj2 (proj2 (proj2 S)))))))|].
  exact (proj1 (proj2 (proj2 (proj2 (proj2 (proj2 (proj2 (proj2 S)))))))).
Defined.

End AnalysisFacts.

(** ** Strings *)

Module PyFacts.

Lemma append_nil_r (s : string) : (s ++ "")%string = s.
Proof. induction s as [|c s IH]; simpl; [reflexivity|rewrite IH; reflexivity]. Qed.

Lemma append_assoc (a b c : string) :
  ((a ++ b) ++ c)%string = (a ++ (b ++ c))%string.
Proof. induction a as [|x a IH]; simpl; [reflexivity|rewrite IH; reflexivity]. Qed.







End PyFacts.

(** ** The stdio proxy *)

Module ProxyFacts.
Import Models Proxy.

(** The lines a loop forwards: everything [readline] returns before the
    first empty string. *)
Fixpoint lines_read (reads : list (string * Z)) : string :=
  match reads with
  | [] => EmptyString
  | (line, _) :: more =>
      if String.eqb line EmptyString then EmptyString
      else (line ++ lines_read more)%string
  end.

Section Forwarding.

Variable json_loads : string -> option json.
Variable format : log_record -> string.
Variable logging : Logging.config.
Variable server_name : string.
Variable server_process_id : Z.

(** The callback the runner hands to the proxy. *)
Definition runner_callback
  : option (MCPMessageTrace -> world -> option world) :=
  Some (Runner.enhanced_audit_message_callback
          format logging server_name server_process_id).

Definition capture := _capture_message json_loads format logging runner_callback.

(** *** What capture leaves alone *)

Lemma log_frame (r : log_record) (w : world) :
  server_stdin (log format logging r w) = server_stdin w /\
  messages_file (log format logging r w) = messages_file w.
Proof. unfold log. destruct (_ && _); split; reflexivity. Qed.

Lemma callback_frame (trace : MCPMessageTrace) (w w' : world) :
  Runner.enhanced_audit_message_callback
    format logging server_name server_process_id trace w = Some w' ->
  server_stdin w' = server_stdin w /\
  exists record,
    MessageData.latency_ms record = latency_ms trace /\
    (messages_file w' = messages_file w \/
     messages_file w' = (messages_file w ++ [record])%list).
Proof.
  unfold Runner.enhanced_audit_message_callback. cbv zeta.
  destruct (if is_str "tools/call" (get "method" (payload trace))
            then _ else _) as [tool_name|];
    intros H; injection H as <-.
  - match goal with
    | |- context [log _ _ _ ?w] =>
        destruct (log_frame
                    (EnhancedAudit server_name (direction trace)
                       (get_default "method" (JStr "response") (payload trace))) w)
          as [-> ->]
    end.
    split; [reflexivity|].
    eexists. split; [|right; reflexivity]. reflexivity.
  - destruct (log_frame ErrorInCallback w) as [-> ->].
    split; [reflexivity|].
    exists {| MessageData.timestamp := 0; MessageData.server_name := server_name;
              MessageData.server_process_id := 0;
              MessageData.direction := EmptyString;
              MessageData.protocol := EmptyString;
              MessageData.payload := [];
              MessageData.latency_ms := latency_ms trace;
              MessageData.error_code := None;
              MessageData.llm_initiated := false;
              MessageData.tool_method := JNull;
              MessageData.tool_name := JNull |}.
    split; [reflexivity|left; reflexivity].
Qed.

(** One capture: the child's stdin is not touched, at most one trace
    and one record are appended, and neither carries a latency. *)
Lemma capture_frame (now : Z) (message : string)
      (direction : MCPMessageDirection) (self : MCPProxy) (w : world) :
  let r := capture now message direction self w in
  server_process (fst r) = server_process self /\
  server_stdin (snd r) = server_stdin w /\
  (exists traces,
      captured_messages (fst r) = (captured_messages self ++ traces)%list /\
      Forall (fun t => latency_ms t = None) traces) /\
  (exists records,
      messages_file (snd r) = (messages_file w ++ records)%list /\
      Forall (fun m => MessageData.latency_ms m = None) records).
Proof.
  cbv zeta. unfold capture, _capture_message, runner_callback.
  assert (Same : forall (s : MCPProxy) (v : world),
             server_process s = server_process self ->
             captured_messages s = captured_messages self ->
             server_stdin v = server_stdin w ->
             messages_file v = messages_file w ->
             server_process (fst (s, v)) = server_process self /\
             server_stdin (snd (s, v)) = server_stdin w /\
             (exists traces,
                 captured_messages (fst (s, v)) = (captured_messages self ++ traces)%list /\
                 Forall (fun t => latency_ms t = None) traces) /\
             (exists records,
                 messages_file (snd (s, v)) = (messages_file w ++ records)%list /\
                 Forall (fun m => MessageData.latency_ms m = None) records)).
  { intros s v H1 H2 H3 H4. cbn [fst snd].
    split; [exact H1|]. split; [exact H3|]. split.
    - exists []. rewrite app_nil_r. split; [exact H2|constructor].
    - exists []. rewrite app_nil_r. split; [exact H4|constructor]. }
  destruct (String.eqb (Py.strip message) EmptyString).
  { apply Same; reflexivity. }
  destruct (json_loads message) as [[| | | | |json_data]|].
  1-5: apply Same; try reflexivity; apply log_frame.
  2: apply Same; try reflexivity; apply log_frame.
  set (trace := {| direction := direction; protocol := JSON_RPC;
                   payload := json_data; timestamp := now;
                   latency_ms := None; error_code := None;
                   retry_attempt := None |}).
  assert (Traces : exists traces,
             (captured_messages self ++ [trace])%list =
             (captured_messages self ++ traces)%list /\
             Forall (fun t => latency_ms t = None) traces).
  { exists [trace]. split; [reflexivity|]. constructor; [reflexivity|constructor]. }
  destruct (Runner.enhanced_audit_message_callback
              format logging server_name server_process_id trace w)
    as [w'|] eqn:E; cbn [fst snd server_process captured_messages].
  - destruct (callback_frame _ _ E) as (Hin & record & Hlat & Hfile).
    match goal with
    | |- context [log _ _ ?r w'] => destruct (log_frame r w') as [-> ->]
    end.
    split; [reflexivity|]. split; [exact Hin|]. split; [exact Traces|].
    destruct Hfile as [->| ->].
    + exists []. rewrite app_nil_r. split; [reflexivity|constructor].
    + exists [record]. split; [reflexivity|].
      constructor; [exact Hlat|constructor].
  - destruct (log_frame ErrorCapturing w) as [-> ->].
    split; [reflexivity|]. split; [reflexivity|]. split; [exact Traces|].
    exists []. rewrite app_nil_r. split; [reflexivity|constructor].
Qed.

(** *** The path from the host to the server *)

Lemma stdin_turn_writes (line : string) (now : Z) (self : MCPProxy) (w : world)
      (p : Popen) :
  server_process self = Some p -> has_stdin p = true ->
  String.eqb line EmptyString = false ->
  exists self' w',
    stdin_turn json_loads format logging runner_callback line now self w
      = Some (self', w') /\
    server_process self' = Some p /\
    server_stdin w' = (server_stdin w ++ line)%string.
Proof.
  intros Hp Hin Hline. unfold stdin_turn. rewrite Hline.
  pose proof (capture_frame now (Py.strip line) LLM_TO_MCP_CLIENT self w) as C.
  cbv zeta in C. unfold capture in C.
  destruct (_capture_message json_loads format logging runner_callback now
              (Py.strip line) LLM_TO_MCP_CLIENT self w) as [self' w'].
  cbn [fst snd] in C. destruct C as (Hproc & Hstdin & _).
  exists self'. eexists. split; [reflexivity|].
  rewrite Hproc, Hp, Hin. split; [reflexivity|].
  cbn [write_server_stdin server_stdin]. rewrite Hstdin. reflexivity.
Qed.

Lemma forward_stdin_general (reads : list (string * Z)) :
  forall (self : MCPProxy) (w : world) (p : Popen),
    server_process self = Some p -> has_stdin p = true ->
    server_stdin
      (snd (_forward_stdin_to_server json_loads format logging runner_callback
              reads self w))
    = (server_stdin w ++ lines_read reads)%string.
Proof.
  unfold _forward_stdin_to_server.
  induction reads as [|[line now] more IH]; intros self w p Hp Hin.
  - simpl. symmetry. apply PyFacts.append_nil_r.
  - cbn [forward lines_read].
    destruct (String.eqb line EmptyString) eqn:Hline.
    + unfold stdin_turn. rewrite Hline. cbn [snd].
      symmetry. apply PyFacts.append_nil_r.
    + destruct (@stdin_turn_writes line now self w p Hp Hin Hline)
        as (self' & w' & -> & Hp' & Hw').
      rewrite (IH self' w' p Hp' Hin), Hw'. apply PyFacts.append_assoc.
Qed.

(** *** The path from the server to the host *)

(** What the callback logs for a captured payload. *)
Definition callback_record (direction : MCPMessageDirection) (json_data : dict)
  : log_record :=
  if is_str "tools/call" (get "method" json_data) then
    match Timeline.params_of json_data with
    | Some _ =>
        EnhancedAudit server_name direction
                      (get_default "method" (JStr "response") json_data)
    | None => ErrorInCallback
    end
  else
    EnhancedAudit server_name direction
                  (get_default "method" (JStr "response") json_data).

Definition captured_record (direction : MCPMessageDirection) (json_data : dict)
  : log_record :=
  Captured direction (get_default "method" (JStr "response") json_data).

End Forwarding.

(** What a [StreamHandler] emits for a record. *)
Definition emitted (format : log_record -> string) (r : log_record) : string :=
  (format r ++ Logging.terminator)%string.

(** C1 fails on the path from the server to the host.  Under the
    logging configuration of the runner, whose root logger has a
    [StreamHandler(sys.stdout)], forwarding one JSON line of the server
    puts two log records on the proxy's stdout before the line: the
    host receives more than the server sent. *)
Theorem log_records_reach_the_host
        (json_loads : string -> option json) (format : log_record -> string)
        (server_name : string) (server_process_id : Z)
        (line : string) (now : Z) (json_data : dict) (w : world) :
  line <> EmptyString ->
  Py.strip (Py.strip line) <> EmptyString ->
  json_loads (Py.strip line) = Some (JDict json_data) ->
  stdout
    (snd (_forward_server_to_stdout json_loads format Runner.logging
            (runner_callback format Runner.logging server_name server_process_id)
            [(line, now)] started w))
  = (stdout w
     ++ emitted format (callback_record server_name MCP_CLIENT_TO_SERVER json_data)
     ++ emitted format (captured_record MCP_CLIENT_TO_SERVER json_data)
     ++ line)%string.
Proof.
  intros Hline Hstrip Hjson.
  apply String.eqb_neq in Hline. apply String.eqb_neq in Hstrip.
  unfold _forward_server_to_stdout, runner_callback.
  cbn [forward stdout_turn started server_process has_stdout negb].
  rewrite Hline. unfold _capture_message. rewrite Hstrip, Hjson.
  unfold Runner.enhanced_audit_message_callback, callback_record, captured_record,
    emitted.
  cbv zeta. cbn [payload direction].
  destruct (is_str "tools/call" (get "method" json_data));
    [destruct (Timeline.params_of json_data); unfold bind|];
    unfold log, Runner.logging;
    cbn [Logging.enabled Logging.root_level Logging.stream_to_stdout level_of
         Logging.rank Nat.leb andb snd stdout write_stdout];
    rewrite !PyFacts.append_assoc; reflexivity.
Qed.

(** The answer of S1 on its way to the host. *)
Lemma log_records_reach_the_host_witness :
  stdout
    (snd (_forward_server_to_stdout Scenario.json_loads Scenario.format
            Runner.logging
            (runner_callback Scenario.format Runner.logging "weather" 4242)
            [(Scenario.response_line, Scenario.t0 + 120000)]
            started Scenario.quiet))
  = ("mcp_audit.interceptors.mcp_proxy_runner - INFO - Enhanced audit [weather]: mcp_client→server - response"
     ++ Scenario.newline
     ++ "mcp_audit.interceptors.mcp_proxy - INFO - Captured mcp_client→server: response"
     ++ Scenario.newline
     ++ Scenario.response_line)%string.
Proof.
  rewrite (@log_records_reach_the_host Scenario.json_loads Scenario.format
             "weather" 4242 Scenario.response_line (Scenario.t0 + 120000)
             (Scenario.result_payload 1) Scenario.quiet).
  - vm_compute. reflexivity.
  - vm_compute. discriminate.
  - vm_compute. discriminate.
  - vm_compute. reflexivity.
Defined.






(** From the host to the server the proxy is transparent: the child's
    stdin receives the lines read from the host, and nothing else. *)
Theorem host_lines_reach_the_server_unchanged
        (json_loads : string -> option json) (format : log_record -> string)
        (logging : Logging.config) (server_name : string) (server_process_id : Z)
        (reads : list (string * Z)) (w : world) :
  server_stdin
    (snd (_forward_stdin_to_server json_loads format logging
            (runner_callback format logging server_name server_process_id)
            reads started w))
  = (server_stdin w ++ lines_read reads)%string.
Proof.
  apply (@forward_stdin_general json_loads format logging server_name
           server_process_id reads started w
           {| has_stdin := true; has_stdout := true; has_stderr := true |});
    reflexivity.
Qed.

(** C6, as the code has it.  Whatever the host and the server feed the
    proxy, every trace the run appends to [captured_messages] and every
    record it appends to the message store has [latency_ms] unset:
    requests and responses are never matched. *)
Theorem captured_latency_is_never_set
        (json_loads : string -> option json) (format : log_record -> string)
        (logging : Logging.config) (server_name : string) (server_process_id : Z)
        (schedule : list read) (in_path out_path : bool)
        (self : MCPProxy) (w : world) :
  let run :=
    gather json_loads format logging
           (runner_callback format logging server_name server_process_id)
           schedule in_path out_path self w in
  (exists traces,
      captured_messages (fst run) = (captured_messages self ++ traces)%list /\
      Forall (fun t => latency_ms t = None) traces) /\
  (exists records,
      messages_file (snd run) = (messages_file w ++ records)%list /\
      Forall (fun m => MessageData.latency_ms m = None) records).
Proof.
  cbv zeta. revert in_path out_path self w.
  assert (Stay : forall (self : MCPProxy) (w : world),
             (exists traces,
                 captured_messages self = (captured_messages self ++ traces)%list /\
                 Forall (fun t => latency_ms t = None) traces) /\
             (exists records,
                 messages_file w = (messages_file w ++ records)%list /\
                 Forall (fun m => MessageData.latency_ms m = None) records)).
  { intros self w. split; exists []; rewrite app_nil_r; split;
      try reflexivity; constructor. }
  assert (Step : forall (self self' : MCPProxy) (w w' : world) run,
             (exists traces,
                 captured_messages self' = (captured_messages self ++ traces)%list /\
                 Forall (fun t => latency_ms t = None) traces) ->
             (exists records,
                 messages_file w' = (messages_file w ++ records)%list /\
                 Forall (fun m => MessageData.latency_ms m = None) records) ->
             ((exists traces,
                  captured_messages (fst run) = (captured_messages self' ++ traces)%list /\
                  Forall (fun t => latency_ms t = None) traces) /\
              (exists records,
                  messages_file (snd run) = (messages_file w' ++ records)%list /\
                  Forall (fun m => MessageData.latency_ms m = None) records)) ->
             (exists traces,
                 captured_messages (fst run) = (captured_messages self ++ traces)%list /\
                 Forall (fun t => latency_ms t = None) traces) /\
             (exists records,
                 messages_file (snd run) = (messages_file w ++ records)%list /\
                 Forall (fun m => MessageData.latency_ms m = None) records)).
  { intros self self' w w' run (t1 & E1 & F1) (r1 & E2 & F2)
           ((t2 & E3 & F3) & (r2 & E4 & F4)).
    split.
    - exists (t1 ++ t2)%list. rewrite E3, E1, app_assoc.
      split; [reflexivity|]. apply Forall_app. split; assumption.
    - exists (r1 ++ r2)%list. rewrite E4, E2, app_assoc.
      split; [reflexivity|]. apply Forall_app. split; assumption. }
  induction schedule as [|[line now|line now] more IH];
    intros in_path out_path self w.
  - apply Stay.
  - cbn [gather]. destruct in_path; [|apply IH].
    unfold stdin_turn.
    destruct (String.eqb line EmptyString); [apply IH|].
    pose proof (@capture_frame json_loads format logging server_name
                  server_process_id now (Py.strip line) LLM_TO_MCP_CLIENT self w) as C.
    cbv zeta in C. unfold capture in C.
    destruct (_capture_message json_loads format logging
                (runner_callback format logging server_name server_process_id)
                now (Py.strip line) LLM_TO_MCP_CLIENT self w) as [self' w'].
    cbn [fst snd] in C. destruct C as (_ & _ & Ht & Hr).
    match goal with
    | |- context [gather _ _ _ _ more true out_path self' ?v] =>
        apply (Step self self' w v); [exact Ht| |apply IH]
    end.
    destruct (server_process self') as [p|]; [destruct (has_stdin p)|]; exact Hr.
  - cbn [gather]. destruct out_path; [|apply IH].
    unfold stdout_turn.
    destruct (server_process self) as [p|]; [|apply IH].
    destruct (has_stdout p); cbn [negb]; [|apply IH].
    destruct (String.eqb line EmptyString); [apply IH|].
    pose proof (@capture_frame json_loads format logging server_name
                  server_process_id now (Py.strip line) MCP_CLIENT_TO_SERVER self w) as C.
    cbv zeta in C. unfold capture in C.
    destruct (_capture_message json_loads format logging
                (runner_callback format logging server_name server_process_id)
                now (Py.strip line) MCP_CLIENT_TO_SERVER self w) as [self' w'].
    cbn [fst snd] in C. destruct C as (_ & _ & Ht & Hr).
    apply (Step self self' w (write_stdout line w')); [exact Ht|exact Hr|apply IH].
Qed.

(** C6, as the specification words it, fails on S1: the response with
    [id] 1 is stored 120 ms after the request with [id] 1, and its
    [latency_ms] is unset. *)
Lemma response_latency_is_unset :
  let store :=
    messages_file
      (snd (gather Scenario.json_loads Scenario.format Runner.logging
                   (Scenario.callback Runner.logging)
                   Scenario.s1_schedule true true started Scenario.quiet)) in
  map (fun m => get "id" (MessageData.payload m)) store = [JInt 1; JInt 1] /\
  map MessageData.direction store = ["llm→mcp_client"; "mcp_client→server"]%string /\
  map MessageData.latency_ms store = [None; None] /\
  match store with
  | [request; response] => Some (Spec.latency_ms request response)
  | _ => None
  end = Some 120.
Proof. vm_compute. repeat split; reflexivity. Qed.

End ProxyFacts.

(** ** Installing the proxy *)

Module ManagerFacts.
Import Config Manager.











End ManagerFacts.

(** ** Unwrapping nested proxies *)

Module FixFacts.
Import Config FixRecursive.

(** The arguments the manager writes around a command and its
    arguments. *)
Definition wrap_args (command : string) (args : list string) : list string :=
  (["-m"; runner_module; "--target-command"; command; "--target-args"]%string
     ++ args)%list.

(** The arguments of a record nested to depth [S k]: the innermost
    wrapping holds the command and the arguments of the server, the
    [k] wrappings around it hold the interpreter [python]. *)
Fixpoint nested (k : nat) (command : string) (args : list string) : list string :=
  match k with
  | O => wrap_args command args
  | S k' => wrap_args "python" (nested k' command args)
  end.

Lemma proxied_args (h : Manager.host) (name : string) (s : server) :
  Config.args (Manager.proxied h name s) =
  Some (wrap_args (match command s with Some c => c | None => EmptyString end)
                  (match Config.args s with Some a => a | None => [] end)).
Proof. reflexivity. Qed.

(** One turn of the loop of [extract_original_from_proxy_args]. *)
Lemma extract_loop_step (current_args : list string) (depth : nat) :
  extract_loop current_args depth =
  if is_proxy_args current_args then
    match peel current_args with
    | None => (None, None, S depth)
    | Some (original_command, original_args) =>
        if String.eqb original_command "python" &&
           (2 <=? List.length original_args)%nat
        then extract_loop original_args (S depth)
        else (Some original_command, Some original_args, S depth)
    end
  else (hd_error current_args, Some (tl current_args), depth).
Proof.
  funelim (extract_loop current_args depth);
    repeat match goal with
           | H : is_proxy_args ?a = _ |- context [is_proxy_args ?a] => rewrite H
           | H : peel ?a = _ |- context [peel ?a] => rewrite H
           | H : (?b && ?c) = _ |- context [?b && ?c] => rewrite H
           end;
    reflexivity.
Qed.

Lemma is_proxy_wrap_args (command : string) (args : list string) :
  is_proxy_args (wrap_args command args) = true.
Proof. reflexivity. Qed.

Lemma peel_wrap_args (command : string) (args : list string) :
  command <> "--target-args"%string ->
  peel (wrap_args command args) = Some (command, args).
Proof.
  intros H. apply String.eqb_neq in H.
  unfold peel, wrap_args, bind. simpl. rewrite H. reflexivity.
Qed.

Lemma nested_length (k : nat) (command : string) (args : list string) :
  (2 <=? List.length (nested k command args))%nat = true.
Proof. destruct k; reflexivity. Qed.

(** Unwrapping works when the server itself is not started by
    [python] with two or more arguments: from a record nested to depth
    [S k] the loop returns the command and the arguments of the server
    after [S k] peelings. *)
Theorem unwrap_of_nested (k : nat) (command : string) (args : list string) :
  command <> "--target-args"%string ->
  String.eqb command "python" && (2 <=? List.length args)%nat = false ->
  extract_original_from_proxy_args (nested k command args)
  = (Some command, Some args, S k).
Proof.
  intros Hc Hpy. unfold extract_original_from_proxy_args.
  assert (G : forall depth,
             extract_loop (nested k command args) depth
             = (Some command, Some args, (depth + S k)%nat)).
  { induction k as [|k IH]; intros depth; cbn [nested];
      rewrite extract_loop_step, is_proxy_wrap_args.
    - rewrite (peel_wrap_args args Hc), Hpy. f_equal. lia.
    - rewrite peel_wrap_args by discriminate.
      rewrite nested_length. cbn [String.eqb Ascii.eqb Bool.eqb andb].
      rewrite IH. f_equal. lia. }
  apply G.
Qed.

(** A Node server behind two proxies. *)
Lemma unwrap_of_nested_witness :
  extract_original_from_proxy_args
    ["-m"; runner_module; "--target-command"; "python"; "--target-args";
     "-m"; runner_module; "--target-command"; "npx"; "--target-args";
     "-y"; "weather-mcp"]%string
  = (Some "npx", Some ["-y"; "weather-mcp"], 2%nat)%string.
Proof.
  apply (@unwrap_of_nested 1 "npx" ["-y"; "weather-mcp"]%string).
  - discriminate.
  - reflexivity.
Defined.

(** One wrapping around [python a0 a1 ...]: the loop goes on after
    the first peeling and falls through. *)
Lemma extract_of_wrapped_python (a0 a1 : string) (rest : list string) :
  is_proxy_args (a0 :: a1 :: rest) = false ->
  extract_original_from_proxy_args (wrap_args "python" (a0 :: a1 :: rest))
  = (Some a0, Some (a1 :: rest), 1%nat).
Proof.
  intros H. unfold extract_original_from_proxy_args.
  rewrite extract_loop_step, is_proxy_wrap_args.
  rewrite peel_wrap_args by discriminate.
  cbn [String.eqb Ascii.eqb Bool.eqb andb List.length Nat.leb].
  rewrite extract_loop_step, H. reflexivity.
Qed.

(** C8 fails when the server itself is started by [python] with two or
    more arguments.  After the one peeling that finds the command
    [python], the loop takes the arguments of the server for another
    proxy record, leaves, and the [return] after the loop answers the
    first argument as the command: the command [python] is lost. *)
Theorem unwrap_loses_python_command (a0 a1 : string) (rest : list string) :
  is_proxy_args (a0 :: a1 :: rest) = false ->
  extract_original_from_proxy_args (wrap_args "python" (a0 :: a1 :: rest))
  = (Some a0, Some (a1 :: rest), 1%nat) /\
  (Some a0, Some (a1 :: rest)) <> (Some "python"%string, Some (a0 :: a1 :: rest)).
Proof.
  intros H. split; [apply extract_of_wrapped_python; exact H|].
  intros E. injection E as _ _ E.
  apply (f_equal (@List.length string)) in E. simpl in E. lia.
Qed.

(** The server [python server.py --verbose], wrapped once by the
    manager, and what the detection reports for it. *)
Lemma unwrap_loses_python_command_witness :
  let wrapped :=
    Manager.proxied Scenario.python_host "weather" Scenario.script_server in
  (command wrapped = Some "python"%string /\
   Config.args wrapped
   = Some (wrap_args "python" ["server.py"; "--verbose"]%string)) /\
  extract_original_from_proxy_args (wrap_args "python" ["server.py"; "--verbose"]%string)
  = (Some "server.py", Some ["--verbose"], 1%nat)%string.
Proof.
  cbv zeta. split; [split; reflexivity|].
  apply (proj1 (@unwrap_loses_python_command "server.py" "--verbose" [] eq_refl)).
Defined.

(** What [detect_recursive_config] makes of it. *)
Lemma detection_of_wrapped_script :
  detect_recursive_config
    (Scenario.one_server
       (Manager.proxied Scenario.python_host "weather" Scenario.script_server))
  = {| is_recursive := true;
       recursion_depth := 1;
       original_command := Some "server.py"%string;
       original_args := Some ["--verbose"%string];
       server_name := Some "weather"%string |}.
Proof.
  unfold detect_recursive_config, Scenario.one_server. cbn [mcpServers detect_in].
  rewrite proxied_args.
  change (command (Manager.proxied Scenario.python_host "weather" Scenario.script_server))
    with (Some "python"%string).
  cbn [String.eqb Ascii.eqb Bool.eqb andb Scenario.script_server command Config.args].
  rewrite is_proxy_wrap_args.
  rewrite (@extract_of_wrapped_python "server.py" "--verbose" []) by reflexivity.
  reflexivity.
Qed.

End FixFacts.
